(** * CodeChatEditor.mjs: the client side of the CodeChat Editor

    A shallow embedding of the pure parts of [client/src/CodeChatEditor.mjs]
    (rendering of classified source into HTML, extraction of the editor
    contents back into (indent, delimiter, contents) triples, the indent
    editor's input filter, the save request and [escapeHTML]), and the
    properties of them that the specification states.

    JavaScript strings are modelled as [string]: the code below looks only
    at the characters [&], [<], [>], space, line feed and carriage return and
    treats every other code unit alike.  A JavaScript exception is the
    [Raise] outcome of the [result] type. *)

From Stdlib Require Import Strings.String Strings.Ascii Lists.List Bool.
From Stdlib Require Import Arith.PeanoNat ZArith Lia Numbers.DecimalString.
Import ListNotations.
Open Scope string_scope.

(** ** The fragment of JavaScript the file relies on *)
Module JS.

Definition LF : ascii := "010"%char.
Definition CR : ascii := "013"%char.
Definition DQ : ascii := "034"%char.

(** One-character strings for the characters that a string literal of
    this file cannot hold. *)
Definition nl : string := String LF "".
Definition cr : string := String CR "".
Definition dq : string := String DQ "".

(** The values a delimiter variable holds: [null], a number (the sentinel
    [-2]) or a string. *)
Inductive value : Type :=
| Null
| Num (z : Z)
| Str (s : string).

(** [a === b] on these values. *)
Definition strict_eq (a b : value) : bool :=
  match a, b with
  | Null, Null => true
  | Num x, Num y => Z.eqb x y
  | Str s, Str t => String.eqb s t
  | _, _ => false
  end.

(** [typeof v === "string"]. *)
Definition is_string (v : value) : bool :=
  match v with
  | Str _ => true
  | _ => false
  end.

(** The conversion a template literal [`${v}`] applies. *)
Definition to_string (v : value) : string :=
  match v with
  | Null => "null"
  | Num z => NilZero.string_of_int (Z.to_int z)
  | Str s => s
  end.

(** [`${n}`] for a number that holds a line count. *)
Definition nat_to_string (n : nat) : string :=
  NilZero.string_of_uint (Nat.to_uint n).

(** Exceptions and the outcome of a call that may raise one. *)
Inductive error : Type :=
| TypeError
| SyntaxError.

Inductive result (A : Type) : Type :=
| Ok (a : A)
| Raise (e : error).
Arguments Ok {A} a.
Arguments Raise {A} e.

Definition bind {A B : Type} (r : result A) (k : A -> result B) : result B :=
  match r with
  | Ok a => k a
  | Raise e => Raise e
  end.

(** [arr.join("")]. *)
Definition join (arr : list string) : string := String.concat "" arr.

(** [" ".repeat(n)] and its like. *)
Fixpoint repeat (s : string) (n : nat) : string :=
  match n with
  | 0 => ""
  | S k => s ++ repeat s k
  end.

(** [s.replaceAll(pat, rep)] for a string pattern and a replacement that
    holds no [$]: matches are found left to right and do not overlap;
    [skip] counts the characters of the current match still to be
    dropped.  The empty pattern matches before every character and at the
    end. *)
Fixpoint replaceAll_from (skip : nat) (pat rep s : string) : string :=
  match s with
  | "" =>
      match skip, pat with
      | 0, "" => rep
      | _, _ => ""
      end
  | String c rest =>
      match skip with
      | S k => replaceAll_from k pat rep rest
      | 0 =>
          if prefix pat s then
            match pat with
            | "" => rep ++ String c (replaceAll_from 0 pat rep rest)
            | String _ pat' =>
                rep ++ replaceAll_from (String.length pat') pat rep rest
            end
          else String c (replaceAll_from 0 pat rep rest)
      end
  end.

Definition replaceAll (s pat rep : string) : string :=
  replaceAll_from 0 pat rep s.

End JS.

Import JS.

Declare Scope result_scope.
Delimit Scope result_scope with result.
Notation "x <- r ;; k" := (bind r (fun x => k))
  (at level 61, r at next level, right associativity) : result_scope.

(** ** Helper functions of the source *)

(** [escapeHTML]: the three [replaceAll] calls, [&] first. *)
Definition escapeHTML (unsafeText : string) : string :=
  let unsafeText := replaceAll unsafeText "&" "&amp;" in
  let unsafeText := replaceAll unsafeText "<" "&lt;" in
  let unsafeText := replaceAll unsafeText ">" "&gt;" in
  unsafeText.

(** ** Rendering classified source: [classified_source_to_html] *)

(** One element of [classified_source]: [[indent, delimiter, contents]]. *)
Definition triple : Type := string * value * string.

(** The result of [contents.match(/\n$/)] when it is not [null]: the index
    of the match and the matched text [m[0]]. *)
Record regexp_match : Type := {
  m_index : nat;
  m_0 : string
}.

(** [s.match(/\n$/)], the search started at index [i]: at each index, a
    line feed and then the end of the input. *)
Fixpoint match_final_newline_from (i : nat) (s : string) : option regexp_match :=
  match s with
  | "" => None
  | String c rest =>
      if Ascii.eqb c LF && String.eqb rest ""
      then Some {| m_index := i; m_0 := nl |}
      else match_final_newline_from (S i) rest
  end.

Definition match_final_newline (s : string) : option regexp_match :=
  match_final_newline_from 0 s.

(** [(s.match(/\n|\r\n|\r/g) || []).length]: the matches are taken left
    to right, the alternatives in their order, so a carriage return followed
    by a line feed is one match. *)
Fixpoint count_line_terminators (s : string) : nat :=
  match s with
  | "" => 0
  | String c rest =>
      if Ascii.eqb c LF then S (count_line_terminators rest)
      else if Ascii.eqb c CR then
        match rest with
        | String c' rest' =>
            if Ascii.eqb c' LF then S (count_line_terminators rest')
            else S (count_line_terminators rest)
        | "" => 1
        end
      else count_line_terminators rest
  end.

(** The template that opens an ACE editor block. *)
Definition code_open (line : nat) : string :=
  nl ++ "<div class=" ++ dq ++ "CodeChat-code" ++ dq ++ ">" ++ nl ++
  "    <div class=" ++ dq ++ "CodeChat-ACE" ++ dq ++
  " data-CodeChat-firstLineNumber=" ++ dq ++ nat_to_string line ++ dq ++ ">".

(** The template that opens a doc block: the one-row table, the indent cell
    and the TinyMCE [div] that carries the delimiter. *)
Definition doc_open (indent : string) (delimiter : value) : string :=
  "<div class=" ++ dq ++ "CodeChat-doc" ++ dq ++ ">" ++ nl ++ "    <table>" ++
  nl ++ "        <tbody>" ++ nl ++ "            <tr>" ++ nl ++
  "                <td class=" ++ dq ++
  "CodeChat-ACE-gutter-padding ace_editor" ++ dq ++
  ">&nbsp;&nbsp;&nbsp</td>" ++ nl ++ "                <td class=" ++ dq ++
  "CodeChat-ACE-padding" ++ dq ++ "></td>                <td class=" ++ dq ++
  "ace_editor CodeChat-doc-indent" ++ dq ++ " contenteditable onpaste=" ++
  dq ++ "return false" ++ dq ++ ">" ++ indent ++ "</td>" ++ nl ++
  "                <td class=" ++ dq ++ "CodeChat-TinyMCE-td" ++ dq ++
  "><div class=" ++ dq ++ "CodeChat-TinyMCE" ++ dq ++
  " data-CodeChat-comment=" ++ dq ++ to_string delimiter ++ dq ++ ">".

Definition code_close : string := "</div>" ++ nl ++ "</div>" ++ nl.

Definition doc_close : string :=
  "</td>" ++ nl ++ "            </tr>" ++ nl ++ "        </tbody>" ++ nl ++
  "    </table>" ++ nl ++ "</div>" ++ nl.

(** [_exit_state(delimiter, html)]: the array after the call. *)
Definition _exit_state (delimiter : value) (html : list string) : list string :=
  if strict_eq delimiter (Str "") then (html ++ [code_close])%list
  else if is_string delimiter then (html ++ [doc_close])%list
  else html.

(** The variables of [classified_source_to_html] that the loop updates.
    [line] is a count of lines: a number that stays an exact integer. *)
Record state : Type := {
  html : list string;
  current_delimiter : value;
  line : nat
}.

Definition initial_state : state :=
  {| html := []; current_delimiter := Num (-2); line := 1 |}.

(** The contents after the final newline, if any, is taken off:
    [contents.substring(0, m.index)] when [m] is not [null]. *)
Definition strip_final_newline (m : option regexp_match) (contents : string) : string :=
  match m with
  | Some mm => substring 0 (m_index mm) contents
  | None => contents
  end.

(** The body of the [for ... of] loop.  In the branch that continues the
    current block [m[0]] is read although [m] may be [null]: that read
    raises a [TypeError]. *)
Definition loop_body (st : state) (t : triple) : result state :=
  let '(indent, delimiter, contents) := t in
  let m := match_final_newline contents in
  let contents := strip_final_newline m contents in
  (html' <-
     (if negb (strict_eq (current_delimiter st) delimiter) then
        let html1 := _exit_state (current_delimiter st) (html st) in
        if strict_eq delimiter (Str "") then
          Ok (html1 ++ [code_open (line st); escapeHTML contents])%list
        else
          Ok (html1 ++ [doc_open indent delimiter; contents])%list
      else
        match m with
        | None => Raise TypeError
        | Some mm =>
            Ok (html st ++
                [m_0 mm;
                 if strict_eq delimiter (Str "") then escapeHTML contents
                 else contents])%list
        end) ;;
   Ok {| html := html';
         current_delimiter := delimiter;
         line := line st + (1 + count_line_terminators contents) |})%result.

(** The loop over [classified_source]. *)
Fixpoint for_of (st : state) (classified_source : list triple) : result state :=
  match classified_source with
  | [] => Ok st
  | t :: rest => (st' <- loop_body st t ;; for_of st' rest)%result
  end.

Definition classified_source_to_html (classified_source : list triple) : result string :=
  (st <- for_of initial_state classified_source ;;
   Ok (join (_exit_state (current_delimiter st) (html st))))%result.

(** ** Saving: [editor_to_code_doc_blocks] *)

(** [full_string.split(/\r?\n/)]: the pieces between the matches of an
    optional carriage return followed by a line feed.  The pattern matches no
    empty text, so the empty string splits into one empty piece. *)
Fixpoint split_lines (s : string) : list string :=
  match s with
  | "" => [""]
  | String c rest =>
      let keep :=
        match split_lines rest with
        | piece :: pieces => String c piece :: pieces
        | [] => [String c ""]
        end in
      if Ascii.eqb c LF then "" :: split_lines rest
      else if Ascii.eqb c CR then
        match rest with
        | String c' rest' =>
            if Ascii.eqb c' LF then "" :: split_lines rest' else keep
        | "" => keep
        end
      else keep
  end.

(** An element that [document.querySelectorAll(".CodeChat-ACE,
    .CodeChat-TinyMCE")] returns, with what the function reads from it:
    the text of the ACE editor; or the text of the table cell before the
    TinyMCE cell, the [data-CodeChat-comment] attribute ([None] when the
    attribute is absent) and the content of the TinyMCE editor.  The
    selector returns no element of another class, and an element of both
    classes is read as an ACE editor. *)
Inductive tag : Type :=
| ACE (getValue : string)
| TinyMCE (indent_cell : string) (comment : option string) (getContent : string).

Section Editor.

(** [html_beautify(text, { wrap_line_length })] of js-beautify. *)
Variable html_beautify : string -> Z -> string.

(** [current_metadata["mode"] === "codechat-html"]. *)
Variable is_doc_only : bool.

(** [delimiter.length]: [null] has no properties. *)
Definition length_of (v : value) : result Z :=
  match v with
  | Str s => Ok (Z.of_nat (String.length s))
  | Null => Raise TypeError
  | Num _ => Raise TypeError
  end.

(** The first half of the loop body: the indent, the delimiter and the
    text [full_string] of a block. *)
Definition block_of_tag (code_or_doc_tag : tag) : result triple :=
  match code_or_doc_tag with
  | ACE getValue => Ok ("", Str "", getValue)
  | TinyMCE indent_cell comment getContent =>
      let indent := if is_doc_only then "" else indent_cell in
      let delimiter :=
        if is_doc_only then Str ""
        else match comment with
             | Some c => Str c
             | None => Null
             end in
      (len <- length_of delimiter ;;
       let full_string :=
         html_beautify getContent
           (80 - Z.of_nat (String.length indent) - len - 1) in
       Ok (indent, delimiter, full_string))%result
  end.

(** The second half: one triple for each line of [full_string]. *)
Definition push_lines (block : triple) : list triple :=
  let '(indent, delimiter, full_string) := block in
  map (fun str => (indent, delimiter, str ++ nl)) (split_lines full_string).

Fixpoint editor_to_code_doc_blocks (tags : list tag) : result (list triple) :=
  match tags with
  | [] => Ok []
  | code_or_doc_tag :: rest =>
      (block <- block_of_tag code_or_doc_tag ;;
       classified_lines <- editor_to_code_doc_blocks rest ;;
       Ok (push_lines block ++ classified_lines)%list)%result
  end.


(** The [data-CodeChat-comment] attribute is there, or is not read. *)
Definition has_delimiter (t : tag) : bool :=
  match t with
  | ACE _ => true
  | TinyMCE _ comment _ =>
      is_doc_only || match comment with Some _ => true | None => false end
  end.

End Editor.


(** ** The indent editor: [doc_block_indent_on_before_input] *)

(** A [beforeinput] event: its [data] ([None] for [null]) and whether
    [preventDefault] was called on it. *)
Record input_event : Type := {
  data : option string;
  defaultPrevented : bool
}.

Definition preventDefault (event : input_event) : input_event :=
  {| data := data event; defaultPrevented := true |}.

(** A string is truthy when it is not empty. *)
Definition truthy (d : option string) : bool :=
  match d with
  | Some s => negb (String.eqb s "")
  | None => false
  end.

Definition doc_block_indent_on_before_input (event : input_event) : input_event :=
  match data event with
  | Some d =>
      if truthy (Some d) then
        if negb (String.eqb d (repeat " " (String.length d)))
        then preventDefault event
        else event
      else event
  | None => event
  end.

(** ** The save request: [save] *)

(** A parsed JSON text. An object is the list of its properties. *)
#[warnings="-register-all"] Inductive json : Type :=
| JNull
| JBool (b : bool)
| JNumber (z : Z)
| JString (s : string)
| JArray (items : list json)
| JObject (properties : list (string * json)).

(** What [save] reads of the response: [ok], [status], [statusText] and
    the outcome of [response.json()]. *)
Record response : Type := {
  ok : bool;
  status : nat;
  statusText : string;
  json_body : result json
}.

(** The outcome of [await window.fetch(...)]: the promise rejects with an
    error (given as the text [`${error}`]) or resolves to a response. *)
Inductive fetch_outcome : Type :=
| Rejects (error : string)
| Resolves (r : response).

Fixpoint lookup (key : string) (properties : list (string * json)) : option json :=
  match properties with
  | [] => None
  | (k, v) :: rest => if String.eqb k key then Some v else lookup key rest
  end.

(** [response_body.success]: [None] is [undefined]; reading a property of
    [null] raises a [TypeError]. *)
Definition get_success (response_body : json) : result (option json) :=
  match response_body with
  | JNull => Raise TypeError
  | JObject properties => Ok (lookup "success" properties)
  | _ => Ok None
  end.

(** [v === true]. *)
Definition is_true (v : option json) : bool :=
  match v with
  | Some (JBool true) => true
  | _ => false
  end.

(** [save]: the alerts shown, in order, and how the call completes, as a
    function of what the [fetch] of the [PUT] request answers; the contents
    sent do not enter the control flow. *)
Definition save (outcome : fetch_outcome) : list string * result unit :=
  match outcome with
  | Rejects error => (["Save failed -- " ++ error ++ "."], Ok tt)
  | Resolves response =>
      if ok response then
        match json_body response with
        | Raise e => ([], Raise e)
        | Ok response_body =>
            match get_success response_body with
            | Raise e => ([], Raise e)
            | Ok success =>
                if negb (is_true success) then (["Save failed."], Ok tt)
                else ([], Ok tt)
            end
        end
      else
        (["Save failed -- server returned " ++ nat_to_string (status response)
          ++ ", " ++ statusText response ++ "."], Ok tt)
  end.

(** ** Loading and saving a page: [open_lp], [on_save] *)

(** [current_metadata]: the lexer info of the loaded file, of which this
    file reads the [mode]. *)
Record metadata : Type := {
  mode : string
}.

(** [is_doc_only()]: the page is a CodeChat Editor document, not a source
    file. *)
Definition is_doc_only (current_metadata : metadata) : bool :=
  String.eqb (mode current_metadata) "codechat-html".

(** [all_source] as [open_lp] receives it and as [on_save] sends it. *)
Record all_source : Type := {
  source_metadata : metadata;
  code_doc_block_arr : list triple
}.

(** [open_lp]: the text assigned to the [innerHTML] of the page body.  For
    a document it is the contents of the first triple,
    [code_doc_block_arr[0][2]], in a TinyMCE [div]; reading the first
    element of an empty array gives [undefined], whose index [2] raises. *)
Definition open_lp (source : all_source) : result string :=
  let current_metadata := source_metadata source in
  if is_doc_only current_metadata then
    match code_doc_block_arr source with
    | [] => Raise TypeError
    | (_, _, contents) :: _ =>
        Ok ("<div class=" ++ dq ++ "CodeChat-TinyMCE" ++ dq ++ ">" ++
            contents ++ "</div>")
    end
  else classified_source_to_html (code_doc_block_arr source).

(** [on_save]: the calls of [window.fetch] made (each with the contents it
    sends), the alerts shown, and how the call completes.  [fetch] is what
    the server answers to the contents sent. *)
Definition on_save
    (html_beautify : string -> Z -> string) (current_metadata : metadata)
    (tags : list tag) (fetch : all_source -> fetch_outcome) :
    list all_source * list string * result unit :=
  match editor_to_code_doc_blocks html_beautify (is_doc_only current_metadata) tags with
  | Raise e => ([], [], Raise e)
  | Ok source_code =>
      let contents :=
        {| source_metadata := current_metadata;
           code_doc_block_arr := source_code |} in
      let '(alerts, completion) := save (fetch contents) in
      ([contents], alerts, completion)
  end.

(** ** The save shortcut: [on_keydown] *)

(** [os_is_osx], from [navigator.platform]: [indexOf("Mac") === 0] or the
    text [iPhone]. *)
Definition os_is_osx (platform : string) : bool :=
  match index 0 "Mac" platform with
  | Some 0 => true
  | _ => false
  end || String.eqb platform "iPhone".

(** A [keydown] event: the key, the modifiers held, and whether
    [preventDefault] was called on it. *)
Record keyboard_event : Type := {
  key : string;
  ctrlKey : bool;
  metaKey : bool;
  altKey : bool;
  keyDefaultPrevented : bool
}.

(** [on_keydown]: whether [on_save] was called, and the event after the
    call. *)
Definition on_keydown (platform : string) (event : keyboard_event) : bool * keyboard_event :=
  if String.eqb (key event) "s" &&
     ((ctrlKey event && negb (os_is_osx platform)) ||
      (metaKey event && os_is_osx platform)) &&
     negb (altKey event)
  then
    (true,
     {| key := key event;
        ctrlKey := ctrlKey event;
        metaKey := metaKey event;
        altKey := altKey event;
        keyDefaultPrevented := true |})
  else (false, event).

(** ** Definitions used to state the properties *)

(** [occurs c s]: the character [c] occurs in [s]. *)
Fixpoint occurs (c : ascii) (s : string) : bool :=
  match s with
  | "" => false
  | String x rest => Ascii.eqb x c || occurs c rest
  end.

(** What [escapeHTML] does to one character. *)
Definition escape_char (c : ascii) : string :=
  if Ascii.eqb c "&" then "&amp;"
  else if Ascii.eqb c "<" then "&lt;"
  else if Ascii.eqb c ">" then "&gt;"
  else String c "".

(** Replacement of every occurrence of one character, by recursion on the
    string: what [replaceAll] computes for a one-character pattern. *)
Fixpoint subst_char (c : ascii) (rep s : string) : string :=
  match s with
  | "" => ""
  | String x rest =>
      (if Ascii.eqb c x then rep else String x "") ++ subst_char c rep rest
  end.

Fixpoint escape_chars (s : string) : string :=
  match s with
  | "" => ""
  | String x rest => escape_char x ++ escape_chars rest
  end.


(** [only_spaces s]: every character of [s] is a space. *)
Fixpoint only_spaces (s : string) : bool :=
  match s with
  | "" => true
  | String x rest => Ascii.eqb x " " && only_spaces rest
  end.


(** [ends_with_cr s]: the last character of [s] is a carriage return. *)
Fixpoint ends_with_cr (s : string) : bool :=
  match s with
  | "" => false
  | String c rest =>
      match rest with
      | "" => Ascii.eqb c CR
      | String _ _ => ends_with_cr rest
      end
  end.

(** The line terminators in the contents of a sequence of triples. *)
Definition total_line_terminators (src : list triple) : nat :=
  list_sum (map (fun t : triple => count_line_terminators (snd t)) src).

(** A line: contents that end in a line feed which no carriage return
    comes before. *)
Definition lf_terminated (t : triple) : Prop :=
  exists s : string, snd t = s ++ nl /\ ends_with_cr s = false.

(** The lines of one block: the first with its indent, and the text of
    each, all of the delimiter [d], every text followed by a line feed. *)
Definition run_of (d : string) (indent first : string) (more : list (string * string)) : list triple :=
  (indent, Str d, first ++ nl) ::
  map (fun l : string * string => (fst l, Str d, snd l ++ nl)) more.

(** [count_char c s]: how often the character [c] occurs in [s]. *)
Fixpoint count_char (c : ascii) (s : string) : nat :=
  match s with
  | "" => 0
  | String x rest => (if Ascii.eqb x c then 1 else 0) + count_char c rest
  end.

(** [starts_with_lf s]: the first character of [s] is a line feed. *)
Definition starts_with_lf (s : string) : bool :=
  match s with
  | String c _ => Ascii.eqb c LF
  | "" => false
  end.

(** A text that [escapeHTML] has nothing to escape in. *)
Definition plain (s : string) : bool :=
  negb (occurs "&" s) && negb (occurs "<" s) && negb (occurs ">" s).

(** The text of one line as an editor holds it: no line feed in it, and no
    carriage return at its end. *)
Definition line_text (s : string) : bool :=
  negb (occurs LF s) && negb (ends_with_cr s).

(** Every triple of the sequence has another delimiter than the one before
    it, the first another one than [cur]. *)
Fixpoint delimiter_changes (cur : value) (src : list triple) : bool :=
  match src with
  | [] => true
  | (_, delimiter, _) :: rest =>
      negb (strict_eq cur delimiter) && delimiter_changes delimiter rest
  end.

(** * Properties *)

(** ** The JavaScript fragment on small inputs *)

Example replaceAll_does_not_overlap : replaceAll "aaa" "aa" "b" = "ba".
Proof. reflexivity. Qed.

Example replaceAll_empty_pattern : replaceAll "ab" "" "-" = "-a-b-".
Proof. reflexivity. Qed.

Example escapeHTML_sample : escapeHTML "a<b && c>d" = "a&lt;b &amp;&amp; c&gt;d".
Proof. reflexivity. Qed.

Example sentinel_as_text : to_string (Num (-2)) = "-2".
Proof. reflexivity. Qed.

Example match_final_newline_sample :
  match_final_newline ("ab" ++ nl) = Some {| m_index := 2; m_0 := nl |} /\
  match_final_newline ("a" ++ nl ++ "b") = None.
Proof. split; reflexivity. Qed.

Example count_line_terminators_sample :
  count_line_terminators ("a" ++ cr ++ nl ++ "b" ++ cr ++ "c" ++ nl) = 3.
Proof. reflexivity. Qed.

Example split_lines_sample :
  split_lines ("a" ++ cr ++ nl ++ "b" ++ nl) = ["a"; "b"; ""] /\
  split_lines (cr ++ cr ++ nl ++ cr) = [cr; cr] /\
  split_lines "" = [""].
Proof. repeat split; reflexivity. Qed.

(** ** Facts on strings *)
Section StringFacts.

Lemma append_nil_r (s : string) : s ++ "" = s.
Proof. induction s as [|c s IH]; simpl; [reflexivity | now rewrite IH]. Qed.

Lemma append_assoc (a b c : string) : (a ++ b) ++ c = a ++ (b ++ c).
Proof. induction a as [|x a IH]; simpl; [reflexivity | now rewrite IH]. Qed.

Lemma length_append (a b : string) :
  String.length (a ++ b) = String.length a + String.length b.
Proof. induction a as [|x a IH]; simpl; [reflexivity | now rewrite IH]. Qed.

Lemma append_inv_head (a b c : string) : a ++ b = a ++ c -> b = c.
Proof.
  induction a as [|x a IH]; simpl; intros H; [exact H|].
  injection H as H. now apply IH.
Qed.

End StringFacts.

Section EscapeHTML.

Lemma replaceAll_char (c : ascii) (rep s : string) :
  replaceAll s (String c "") rep = subst_char c rep s.
Proof.
  unfold replaceAll.
  induction s as [|x s IH]; [reflexivity|].
  cbn [replaceAll_from subst_char prefix String.length].
  destruct (ascii_dec c x) as [->|n].
  - rewrite Ascii.eqb_refl.
    destruct s; cbn [prefix]; now rewrite IH.
  - apply Ascii.eqb_neq in n. rewrite n, IH. reflexivity.
Qed.

Lemma subst_char_app (c : ascii) (rep a b : string) :
  subst_char c rep (a ++ b) = subst_char c rep a ++ subst_char c rep b.
Proof.
  induction a as [|x a IH]; [reflexivity|].
  cbn [append subst_char]. now rewrite IH, append_assoc.
Qed.

Lemma escapeHTML_chars (s : string) : escapeHTML s = escape_chars s.
Proof.
  unfold escapeHTML. rewrite !replaceAll_char.
  induction s as [|x s IH]; [reflexivity|].
  cbn [subst_char escape_chars].
  rewrite !subst_char_app, IH. f_equal.
  unfold escape_char.
  destruct (Ascii.eqb_spec x "&") as [->|Na]; [reflexivity|].
  destruct (Ascii.eqb_spec "&" x) as [E|_]; [now subst|].
  destruct (Ascii.eqb_spec x "<") as [->|Nl]; [reflexivity|].
  destruct (Ascii.eqb_spec x ">") as [->|Ng]; [reflexivity|].
  cbn [subst_char append].
  destruct (Ascii.eqb_spec "<" x) as [E|_]; [now subst|].
  cbn [subst_char append].
  destruct (Ascii.eqb_spec ">" x) as [E|_]; [now subst|].
  reflexivity.
Qed.

Lemma occurs_app (c : ascii) (a b : string) :
  occurs c (a ++ b) = occurs c a || occurs c b.
Proof.
  induction a as [|x a IH]; [reflexivity|].
  cbn [append occurs]. now rewrite IH, orb_assoc.
Qed.

Lemma escape_char_clean (x : ascii) :
  occurs "<" (escape_char x) = false /\ occurs ">" (escape_char x) = false.
Proof.
  unfold escape_char.
  destruct (Ascii.eqb_spec x "&"); [split; reflexivity|].
  destruct (Ascii.eqb_spec x "<") as [|Nl]; [split; reflexivity|].
  destruct (Ascii.eqb_spec x ">") as [|Ng]; [split; reflexivity|].
  cbn [occurs]. rewrite !orb_false_r.
  split; now apply Ascii.eqb_neq.
Qed.

Lemma escape_chars_clean (s : string) :
  occurs "<" (escape_chars s) = false /\ occurs ">" (escape_chars s) = false.
Proof.
  induction s as [|x s [IHl IHg]]; [split; reflexivity|].
  cbn [escape_chars]. rewrite !occurs_app, IHl, IHg.
  destruct (escape_char_clean x) as [-> ->]. split; reflexivity.
Qed.

(** The first character of [escape_char x] is [&] exactly when [x] is
    one of the three escaped characters, and the second one then tells
    which: the escapes form a prefix code. *)
Lemma escape_chars_inj (s1 s2 : string) :
  escape_chars s1 = escape_chars s2 -> s1 = s2.
Proof.
  revert s2.
  induction s1 as [|x s1 IH]; intros [|y s2]; cbn [escape_chars].
  - reflexivity.
  - unfold escape_char.
    destruct (Ascii.eqb y "&"), (Ascii.eqb y "<"), (Ascii.eqb y ">");
      discriminate.
  - unfold escape_char.
    destruct (Ascii.eqb x "&"), (Ascii.eqb x "<"), (Ascii.eqb x ">");
      discriminate.
  - unfold escape_char.
    destruct (Ascii.eqb_spec x "&") as [->|Xa];
      [|destruct (Ascii.eqb_spec x "<") as [->|Xl];
        [|destruct (Ascii.eqb_spec x ">") as [->|Xg]]];
    (destruct (Ascii.eqb_spec y "&") as [->|Ya];
      [|destruct (Ascii.eqb_spec y "<") as [->|Yl];
        [|destruct (Ascii.eqb_spec y ">") as [->|Yg]]]);
    cbn [append]; intros H; inversion H; subst;
    try congruence; f_equal; now apply IH.
Qed.

End EscapeHTML.

(** C8.  The output of [escapeHTML] holds neither [<] nor [>], and
    [escapeHTML] is injective: distinct inputs yield distinct outputs. *)
Theorem escapeHTML_clean_and_injective :
  (forall s : string,
      occurs "<" (escapeHTML s) = false /\ occurs ">" (escapeHTML s) = false) /\
  (forall s1 s2 : string, s1 <> s2 -> escapeHTML s1 <> escapeHTML s2).
Proof.
  split.
  - intros s. rewrite escapeHTML_chars. apply escape_chars_clean.
  - intros s1 s2 N E. apply N.
    rewrite !escapeHTML_chars in E. now apply escape_chars_inj.
Qed.

(** A text that is itself an escape and the character it escapes are kept
    apart, because [&] is replaced first. *)
Lemma escapeHTML_clean_and_injective_witness :
  "<" <> "&lt;" /\ escapeHTML "<" <> escapeHTML "&lt;".
Proof.
  split; [discriminate|].
  apply (proj2 escapeHTML_clean_and_injective); discriminate.
Defined.



(** ** Rendering *)
Section Rendering.

Lemma join_cons (x : string) (xs : list string) : join (x :: xs) = x ++ join xs.
Proof.
  unfold join. destruct xs as [|y ys]; cbn [concat].
  - now rewrite append_nil_r.
  - reflexivity.
Qed.

Lemma join_single (x : string) : join [x] = x.
Proof. reflexivity. Qed.

Lemma join_app (xs ys : list string) : join (xs ++ ys) = join xs ++ join ys.
Proof.
  induction xs as [|x xs IH]; [reflexivity|].
  cbn [app]. now rewrite !join_cons, IH, append_assoc.
Qed.

Lemma strict_eq_spec (a b : value) : reflect (a = b) (strict_eq a b).
Proof.
  destruct a as [|x|s], b as [|y|t]; cbn [strict_eq];
    try (constructor; congruence).
  - destruct (Z.eqb_spec x y); constructor; congruence.
  - destruct (String.eqb_spec s t); constructor; congruence.
Qed.

Lemma exit_state_app (d : value) (h : list string) :
  _exit_state d h = (h ++ _exit_state d [])%list.
Proof.
  unfold _exit_state.
  destruct (strict_eq d (Str "")); [reflexivity|].
  destruct (is_string d); [reflexivity|].
  now rewrite app_nil_r.
Qed.

Lemma exit_state_string (d : string) (h : list string) :
  _exit_state (Str d) h =
  (h ++ [if String.eqb d "" then code_close else doc_close])%list.
Proof.
  unfold _exit_state. cbn [strict_eq is_string].
  now destruct (String.eqb d "").
Qed.

Lemma for_of_app (st : state) (xs ys : list triple) :
  for_of st (xs ++ ys) = (st' <- for_of st xs ;; for_of st' ys)%result.
Proof.
  revert st.
  induction xs as [|x xs IH]; intros st; [reflexivity|].
  cbn [app for_of]. destruct (loop_body st x) as [st'|e]; cbn [bind].
  - apply IH.
  - reflexivity.
Qed.

Lemma match_final_newline_from_m_0 (i : nat) (s : string) (mm : regexp_match) :
  match_final_newline_from i s = Some mm -> m_0 mm = nl.
Proof.
  revert i.
  induction s as [|c s IH]; intros i; cbn [match_final_newline_from].
  - discriminate.
  - destruct (Ascii.eqb c LF && String.eqb s "").
    + intros H. injection H as <-. reflexivity.
    + apply IH.
Qed.

End Rendering.

(** C9.  The empty sequence renders to the empty string: the final
    [_exit_state] call receives the sentinel [-2], which is neither the empty
    string nor another string, and pushes nothing. *)
Theorem empty_source_renders_empty :
  classified_source_to_html [] = Ok "" /\
  current_delimiter initial_state = Num (-2) /\
  forall html : list string, _exit_state (Num (-2)) html = html.
Proof. repeat split. Qed.

(** C4.  A triple whose delimiter is [null] opens a doc block, with
    [null] as the text of its delimiter attribute, but the closing markup
    of a doc block is not emitted for it: [_exit_state] closes strings
    only.  A string delimiter at the same place is closed. *)
Theorem null_delimiter_block_is_not_closed :
  classified_source_to_html [("", Null, "hi" ++ nl)] =
    Ok (doc_open "" Null ++ "hi") /\
  classified_source_to_html [("", Str "#", "hi" ++ nl)] =
    Ok (doc_open "" (Str "#") ++ "hi" ++ doc_close) /\
  forall h : list string, _exit_state Null h = h.
Proof. repeat split. Qed.

(** C1.  In a block that goes on, the newline pushed before a triple's
    contents is the one matched at the end of that triple itself, not the
    one taken off the triple before: a last line without a final newline
    raises a [TypeError], and a line without a final newline is still
    followed by a newline when the next line has one. *)
Theorem newline_read_from_the_continuing_triple :
  classified_source_to_html [("", Str "", "a" ++ nl); ("", Str "", "b")] =
    Raise TypeError /\
  classified_source_to_html [("", Str "", "a"); ("", Str "", "b" ++ nl)] =
    Ok (code_open 1 ++ "a" ++ nl ++ "b" ++ code_close).
Proof. split; reflexivity. Qed.

(** C5.  Two doc lines of one delimiter are merged into one block when
    both end in a newline; when the second one does not, no block is
    rendered at all: the call raises a [TypeError]. *)
Theorem unterminated_line_in_a_run_is_not_merged :
  classified_source_to_html
    [("", Str "#", "a" ++ nl); ("", Str "#", "b" ++ nl)] =
    Ok (doc_open "" (Str "#") ++ "a" ++ nl ++ "b" ++ doc_close) /\
  classified_source_to_html [("", Str "#", "a" ++ nl); ("", Str "#", "b")] =
    Raise TypeError.
Proof. split; reflexivity. Qed.

(** C10.  A line that ends in a carriage return and a line feed holds one
    line terminator, but it advances the line number by two: the line feed
    is taken off and counted, and the carriage return left behind is counted
    again.  The code block after it is numbered 3, not 2. *)
Theorem first_line_number_after_crlf :
  classified_source_to_html
    [("", Str "#", "a" ++ cr ++ nl); ("", Str "", "b" ++ nl)] =
    Ok (doc_open "" (Str "#") ++ "a" ++ cr ++ doc_close ++
        code_open 3 ++ "b" ++ code_close) /\
  1 + count_line_terminators ("a" ++ cr ++ nl) = 2.
Proof. split; reflexivity. Qed.

(** ** The indent editor *)
Section Indent.

Lemma eqb_repeat_spaces (d : string) :
  String.eqb d (repeat " " (String.length d)) = only_spaces d.
Proof.
  induction d as [|x d IH]; [reflexivity|].
  cbn [String.length repeat append String.eqb only_spaces].
  now rewrite IH.
Qed.

Lemma only_spaces_false (d : string) :
  only_spaces d = false <->
  exists c : ascii, c <> " "%char /\ occurs c d = true.
Proof.
  induction d as [|x d IH]; cbn [only_spaces occurs].
  - split; [discriminate | intros (c & _ & H); discriminate].
  - destruct (Ascii.eqb_spec x " ") as [->|N]; cbn [andb].
    + rewrite IH. split; intros (c & Hc & H); exists c; split; trivial.
      * rewrite H. apply orb_true_r.
      * apply orb_true_iff in H as [H|H]; [|exact H].
        apply Ascii.eqb_eq in H. congruence.
    + split; [intros _ | reflexivity].
      exists x. split; [exact N|]. now rewrite Ascii.eqb_refl.
Qed.

End Indent.

(** C6.  For a [beforeinput] event whose data is a string that is not
    empty, the handler prevents the insertion exactly when the data holds a
    character other than a space; the data itself is left as it is, so
    what is let into the indent is spaces. *)
Theorem indent_insert_prevented_iff_not_spaces (d : string) :
  d <> "" ->
  let event := {| data := Some d; defaultPrevented := false |} in
  (defaultPrevented (doc_block_indent_on_before_input event) = true <->
   exists c : ascii, c <> " "%char /\ occurs c d = true) /\
  (defaultPrevented (doc_block_indent_on_before_input event) = false ->
   only_spaces d = true) /\
  data (doc_block_indent_on_before_input event) = Some d.
Proof.
  intros Hd event.
  assert (E : doc_block_indent_on_before_input event =
              if only_spaces d then event else preventDefault event).
  { unfold doc_block_indent_on_before_input, truthy. cbn [data event].
    apply String.eqb_neq in Hd. rewrite Hd, eqb_repeat_spaces.
    now destruct (only_spaces d). }
  rewrite E, <- only_spaces_false.
  destruct (only_spaces d); cbn; repeat split; congruence.
Qed.

Lemma indent_insert_prevented_iff_not_spaces_witness :
  " x" <> "" /\
  defaultPrevented
    (doc_block_indent_on_before_input
       {| data := Some " x"; defaultPrevented := false |}) = true /\
  defaultPrevented
    (doc_block_indent_on_before_input
       {| data := Some "  "; defaultPrevented := false |}) = false.
Proof.
  split; [discriminate|]. split.
  - apply (proj1 (indent_insert_prevented_iff_not_spaces " x"
                    ltac:(discriminate))).
    exists "x"%char. split; [discriminate | reflexivity].
  - reflexivity.
Defined.

(** ** Saving *)
Section Saving.

Lemma split_lines_nonempty (s : string) : split_lines s <> [].
Proof.
  destruct s as [|c rest]; cbn [split_lines]; [discriminate|].
  assert (K : match split_lines rest with
              | piece :: pieces => String c piece :: pieces
              | [] => [String c ""]
              end <> []) by (destruct (split_lines rest); discriminate).
  destruct (Ascii.eqb c LF); [discriminate|].
  destruct (Ascii.eqb c CR); [|exact K].
  destruct rest as [|c' rest']; [exact K|].
  destruct (Ascii.eqb c' LF); [discriminate | exact K].
Qed.








Variable html_beautify : string -> Z -> string.
Variable is_doc_only : bool.

Lemma block_of_tag_total (t : tag) :
  has_delimiter is_doc_only t = true ->
  exists block : triple, block_of_tag html_beautify is_doc_only t = Ok block.
Proof.
  destruct t as [v|indent_cell comment content]; cbn [has_delimiter block_of_tag].
  - eexists. reflexivity.
  - destruct is_doc_only; cbn [orb].
    + eexists. reflexivity.
    + destruct comment as [c|]; [|discriminate].
      eexists. reflexivity.
Qed.

End Saving.




(** ** Rendering of lines that end in a newline

    What the renderer does on the input it is written for, where every
    triple holds one line and its final newline. *)
Section Lines.

Lemma eqb_append_nl_empty (s : string) : String.eqb (s ++ nl) "" = false.
Proof. now destruct s. Qed.

Lemma match_final_newline_from_snoc (i : nat) (s : string) :
  match_final_newline_from i (s ++ nl) =
  Some {| m_index := i + String.length s; m_0 := nl |}.
Proof.
  revert i.
  induction s as [|c s IH]; intros i.
  - cbn. now rewrite Nat.add_0_r.
  - cbn [append match_final_newline_from String.length].
    rewrite eqb_append_nl_empty, andb_false_r, IH.
    now rewrite Nat.add_succ_r.
Qed.

Lemma match_final_newline_snoc (s : string) :
  match_final_newline (s ++ nl) =
  Some {| m_index := String.length s; m_0 := nl |}.
Proof. apply (match_final_newline_from_snoc 0). Qed.

Lemma substring_prefix (s t : string) :
  substring 0 (String.length s) (s ++ t) = s.
Proof.
  induction s as [|c s IH]; cbn [String.length append substring].
  - now destruct t.
  - now rewrite IH.
Qed.

Lemma strip_final_newline_snoc (s : string) :
  strip_final_newline (match_final_newline (s ++ nl)) (s ++ nl) = s.
Proof.
  unfold match_final_newline. rewrite match_final_newline_from_snoc.
  cbn [strip_final_newline m_index Nat.add]. apply substring_prefix.
Qed.

Lemma strip_final_newline_none (s : string) :
  match_final_newline s = None ->
  strip_final_newline (match_final_newline s) s = s.
Proof. intros ->. reflexivity. Qed.

(** The body of the loop on a line that goes on with the current block. *)
Lemma loop_body_continue (st : state) (indent d s : string) :
  current_delimiter st = Str d ->
  loop_body st (indent, Str d, s ++ nl) =
  Ok {| html := html st ++
                [nl; if String.eqb d "" then escapeHTML s else s];
        current_delimiter := Str d;
        line := line st + (1 + count_line_terminators s) |}.
Proof.
  intros E. cbn [loop_body].
  rewrite strip_final_newline_snoc, E.
  destruct (strict_eq_spec (Str d) (Str d)) as [_|N]; [|congruence].
  unfold match_final_newline. rewrite match_final_newline_from_snoc.
  reflexivity.
Qed.

(** The body of the loop on a line that enters a block. *)
Lemma loop_body_enter (st : state) (indent d s : string) :
  current_delimiter st <> Str d ->
  loop_body st (indent, Str d, s ++ nl) =
  Ok {| html := html st ++ _exit_state (current_delimiter st) [] ++
                [if String.eqb d "" then code_open (line st)
                 else doc_open indent (Str d);
                 if String.eqb d "" then escapeHTML s else s];
        current_delimiter := Str d;
        line := line st + (1 + count_line_terminators s) |}.
Proof.
  intros N. cbn [loop_body].
  rewrite strip_final_newline_snoc.
  destruct (strict_eq_spec (current_delimiter st) (Str d)) as [E|_];
    [congruence|].
  cbn [negb strict_eq].
  rewrite (exit_state_app (current_delimiter st) (html st)).
  destruct (String.eqb d ""); cbn [bind]; now rewrite <- app_assoc.
Qed.

(** The lines after the first of a block: each one is preceded by the
    newline of the line before it. *)
Lemma for_of_continue (d : string) (more : list (string * string)) (st : state) :
  current_delimiter st = Str d ->
  for_of st (map (fun l : string * string => (fst l, Str d, snd l ++ nl)) more) =
  Ok {| html := html st ++
                flat_map (fun l : string * string =>
                            [nl; if String.eqb d "" then escapeHTML (snd l)
                                 else snd l]) more;
        current_delimiter := Str d;
        line := line st +
                list_sum (map (fun l : string * string =>
                                 1 + count_line_terminators (snd l)) more) |}.
Proof.
  revert st.
  induction more as [|[i s] more IH]; intros st E.
  - cbn. rewrite app_nil_r, Nat.add_0_r, <- E. now destruct st.
  - cbn [map for_of fst snd].
    rewrite (loop_body_continue st i d s E). cbn [bind].
    rewrite IH by reflexivity.
    cbn [html line current_delimiter flat_map map fst snd].
    rewrite <- app_assoc. do 2 f_equal.
    unfold list_sum. cbn [fold_right]. lia.
Qed.

(** The text of a block: its lines with a newline between them. *)
Lemma join_lines (f : string -> string) (first : string)
    (more : list (string * string)) :
  join (f first :: flat_map (fun l : string * string => [nl; f (snd l)]) more) =
  String.concat nl (map f (first :: map snd more)).
Proof.
  revert first.
  induction more as [|[i s] more IH]; intros first.
  - reflexivity.
  - cbn [flat_map map snd app].
    rewrite join_cons, join_cons, IH. reflexivity.
Qed.

(** Merging: the lines of one run, rendered after the triples [pre], make
    one block, opened once and closed once, whose text is the lines with
    the newlines between them. *)
Lemma run_renders_as_one_block
    (pre : list triple) (st : state) (d indent first : string)
    (more : list (string * string)) :
  for_of initial_state pre = Ok st ->
  current_delimiter st <> Str d ->
  let f := fun s : string => if String.eqb d "" then escapeHTML s else s in
  classified_source_to_html (pre ++ run_of d indent first more) =
  Ok (join (html st) ++ join (_exit_state (current_delimiter st) []) ++
      (if String.eqb d "" then code_open (line st)
       else doc_open indent (Str d)) ++
      String.concat nl (map f (first :: map snd more)) ++
      (if String.eqb d "" then code_close else doc_close)).
Proof.
  intros Hpre N f.
  unfold classified_source_to_html, run_of.
  rewrite for_of_app, Hpre. cbn [bind for_of].
  rewrite (loop_body_enter st indent d first N). cbn [bind].
  rewrite for_of_continue by reflexivity.
  cbn [bind html current_delimiter].
  rewrite exit_state_string, <- !app_assoc.
  rewrite !join_app. cbn [app].
  rewrite <- (join_lines f first more).
  rewrite !join_cons. subst f. cbv beta.
  change (join []) with "".
  rewrite ?append_nil_r, !append_assoc. reflexivity.
Qed.

Lemma count_line_terminators_snoc (s : string) :
  count_line_terminators (s ++ nl) =
  count_line_terminators s + (if ends_with_cr s then 0 else 1).
Proof.
  induction s as [|c s IH]; [reflexivity|].
  cbn [append count_line_terminators ends_with_cr].
  destruct (Ascii.eqb_spec c LF) as [->|NL].
  - cbn [Nat.add]. rewrite IH. now destruct s.
  - destruct (Ascii.eqb_spec c CR) as [->|NC].
    + destruct s as [|c' s']; [reflexivity|].
      cbn [append].
      destruct (Ascii.eqb c' LF) eqn:E'.
      * cbn [append count_line_terminators] in IH. rewrite E' in IH.
        cbn [Nat.add] in *. injection IH as IH. now rewrite IH.
      * cbn [append] in IH. cbn [Nat.add]. f_equal. exact IH.
    + rewrite IH. now destruct s.
Qed.

(** The line counter after a sequence of lines: every line advances it by
    the number of its line terminators. *)
Lemma line_counts_line_terminators (src : list triple) (st st' : state) :
  Forall lf_terminated src ->
  for_of st src = Ok st' ->
  line st' = line st + total_line_terminators src.
Proof.
  intros Hsrc. revert st.
  induction Hsrc as [|[[indent delimiter] contents] src (s & Es & Hcr) _ IH];
    intros st.
  - cbn. intros H. injection H as <-. now rewrite Nat.add_0_r.
  - cbn [snd] in Es. subst contents.
    cbn [for_of loop_body]. rewrite strip_final_newline_snoc.
    match goal with
    | |- (bind (bind ?r _) _) = _ -> _ => destruct r as [h|e]
    end; cbn [bind]; [|discriminate].
    intros H. apply IH in H. rewrite H. cbn [line].
    unfold total_line_terminators. cbn [map list_sum snd].
    rewrite count_line_terminators_snoc, Hcr.
    unfold list_sum. cbn [fold_right]. lia.
Qed.

(** A sequence of lines is rendered: the call raises nothing. *)
Lemma lines_are_rendered (src : list triple) (st : state) :
  Forall (fun t : triple => exists s : string, snd t = s ++ nl) src ->
  exists st' : state, for_of st src = Ok st'.
Proof.
  intros Hsrc. revert st.
  induction Hsrc as [|[[indent delimiter] contents] src (s & Es) _ IH];
    intros st.
  - eexists. reflexivity.
  - cbn [snd] in Es. subst contents.
    cbn [for_of loop_body].
    rewrite match_final_newline_snoc.
    destruct (negb (strict_eq (current_delimiter st) delimiter));
      [destruct (strict_eq delimiter (Str ""))|]; cbn [bind]; apply IH.
Qed.

(** The first line number of a code block that follows lines terminated
    by a line feed alone is one more than the line terminators before it. *)
Lemma first_line_number_of_lf_lines
    (pre : list triple) (indent contents : string) :
  Forall lf_terminated pre ->
  exists st : state,
    for_of initial_state pre = Ok st /\
    line st = 1 + total_line_terminators pre /\
    (current_delimiter st <> Str "" ->
     loop_body st (indent, Str "", contents) =
     Ok {| html :=
             html st ++ _exit_state (current_delimiter st) [] ++
             [code_open (1 + total_line_terminators pre);
              escapeHTML
                (strip_final_newline (match_final_newline contents) contents)];
           current_delimiter := Str "";
           line :=
             line st +
             (1 + count_line_terminators
                    (strip_final_newline (match_final_newline contents)
                       contents)) |}).
Proof.
  intros Hpre.
  destruct (lines_are_rendered pre initial_state) as [st Hst].
  { eapply Forall_impl; [|exact Hpre].
    intros t (s & Es & _). now exists s. }
  exists st. split; [exact Hst|].
  pose proof (line_counts_line_terminators pre initial_state st Hpre Hst) as L.
  cbn [line initial_state] in L. split; [exact L|].
  intros N. cbn [loop_body].
  destruct (strict_eq_spec (current_delimiter st) (Str "")) as [E|_];
    [congruence|].
  cbn [negb strict_eq String.eqb bind].
  rewrite (exit_state_app (current_delimiter st) (html st)), <- app_assoc, L.
  reflexivity.
Qed.

End Lines.

(** * Further properties of the code *)

(** ** [escapeHTML] *)
Section EscapeHTMLLaws.

Lemma escape_chars_app (a b : string) :
  escape_chars (a ++ b) = escape_chars a ++ escape_chars b.
Proof.
  induction a as [|x a IH]; [reflexivity|].
  cbn [append escape_chars]. now rewrite IH, append_assoc.
Qed.

Lemma escape_char_length (x : ascii) :
  String.length (escape_char x) =
  1 + 4 * (if Ascii.eqb x "&" then 1 else 0)
    + 3 * (if Ascii.eqb x "<" then 1 else 0)
    + 3 * (if Ascii.eqb x ">" then 1 else 0).
Proof.
  unfold escape_char.
  destruct (Ascii.eqb_spec x "&") as [->|_]; [reflexivity|].
  destruct (Ascii.eqb_spec x "<") as [->|_]; [reflexivity|].
  destruct (Ascii.eqb_spec x ">") as [->|_]; reflexivity.
Qed.

Lemma escape_chars_length (s : string) :
  String.length (escape_chars s) =
  String.length s + 4 * count_char "&" s + 3 * count_char "<" s
  + 3 * count_char ">" s.
Proof.
  induction s as [|x s IH]; [reflexivity|].
  cbn [escape_chars count_char String.length].
  rewrite length_append, escape_char_length, IH. lia.
Qed.

Lemma count_char_zero (c : ascii) (s : string) :
  count_char c s = 0 <-> occurs c s = false.
Proof.
  induction s as [|x s IH]; cbn [count_char occurs]; [tauto|].
  destruct (Ascii.eqb x c); cbn [orb].
  - split; [lia | discriminate].
  - exact IH.
Qed.

Lemma plain_cons (x : ascii) (s : string) :
  plain (String x s) =
  negb (Ascii.eqb x "&") && negb (Ascii.eqb x "<") && negb (Ascii.eqb x ">")
  && plain s.
Proof.
  unfold plain. cbn [occurs].
  destruct (Ascii.eqb x "&"), (Ascii.eqb x "<"), (Ascii.eqb x ">"),
    (occurs "&" s), (occurs "<" s), (occurs ">" s); reflexivity.
Qed.

Lemma escape_chars_plain (s : string) : plain s = true -> escape_chars s = s.
Proof.
  induction s as [|x s IH]; [reflexivity|].
  rewrite plain_cons. intros H.
  apply andb_true_iff in H as [H Hs].
  apply andb_true_iff in H as [H Hg].
  apply andb_true_iff in H as [Ha Hl].
  cbn [escape_chars]. unfold escape_char.
  apply negb_true_iff in Ha, Hl, Hg. rewrite Ha, Hl, Hg, (IH Hs).
  reflexivity.
Qed.

Lemma plain_counts (s : string) :
  plain s = true <->
  count_char "&" s = 0 /\ count_char "<" s = 0 /\ count_char ">" s = 0.
Proof.
  unfold plain. rewrite !count_char_zero.
  destruct (occurs "&" s), (occurs "<" s), (occurs ">" s); cbn;
    intuition discriminate.
Qed.

Lemma occurs_amp_escape_chars (s : string) :
  occurs "&" (escape_chars s) = negb (plain s).
Proof.
  induction s as [|x s IH]; [reflexivity|].
  rewrite plain_cons. cbn [escape_chars]. rewrite occurs_app, IH.
  unfold escape_char.
  destruct (Ascii.eqb_spec x "&") as [->|Na]; [reflexivity|].
  destruct (Ascii.eqb_spec x "<") as [->|Nl]; [reflexivity|].
  destruct (Ascii.eqb_spec x ">") as [->|Ng]; [reflexivity|].
  cbn [occurs negb andb orb].
  apply Ascii.eqb_neq in Na. now rewrite Na.
Qed.

Lemma escape_chars_fixed_iff_plain (s : string) :
  escape_chars s = s <-> plain s = true.
Proof.
  split.
  - intros E. apply plain_counts.
    pose proof (escape_chars_length s) as L. rewrite E in L. lia.
  - apply escape_chars_plain.
Qed.

End EscapeHTMLLaws.

(** X1.  [escapeHTML] goes through concatenation: a text may be escaped
    piece by piece. *)
Theorem escapeHTML_app (a b : string) :
  escapeHTML (a ++ b) = escapeHTML a ++ escapeHTML b.
Proof. rewrite !escapeHTML_chars. apply escape_chars_app. Qed.

(** X2.  The length of the escaped text: every [&] adds four characters
    and every [<] and [>] adds three. *)
Theorem escapeHTML_length (s : string) :
  String.length (escapeHTML s) =
  String.length s + 4 * count_char "&" s + 3 * count_char "<" s
  + 3 * count_char ">" s.
Proof. rewrite escapeHTML_chars. apply escape_chars_length. Qed.

(** X3.  [escapeHTML] leaves a text as it is exactly when the text holds
    none of [&], [<] and [>]. *)
Theorem escapeHTML_fixes_plain_text_only (s : string) :
  escapeHTML s = s <-> plain s = true.
Proof. rewrite escapeHTML_chars. apply escape_chars_fixed_iff_plain. Qed.

(** X4.  Escaping twice is not escaping once: the second call changes the
    result of the first whenever there was something to escape. *)
Theorem escapeHTML_twice (s : string) :
  escapeHTML (escapeHTML s) = escapeHTML s <-> plain s = true.
Proof.
  rewrite !escapeHTML_chars, escape_chars_fixed_iff_plain.
  unfold plain at 1.
  destruct (escape_chars_clean s) as [-> ->].
  rewrite occurs_amp_escape_chars.
  destruct (plain s); cbn; intuition discriminate.
Qed.

(** ** [editor_to_code_doc_blocks] *)
Section SplitLines.

Lemma string_length_ind (P : string -> Prop) :
  (forall s : string,
      (forall t : string, String.length t < String.length s -> P t) -> P s) ->
  forall s : string, P s.
Proof.
  intros step s.
  assert (H : forall (n : nat) (t : string), String.length t < n -> P t).
  { induction n as [|n IH]; intros t Ht; [lia|].
    apply step. intros u Hu. apply IH. lia. }
  apply (H (S (String.length s))). lia.
Qed.

(** The cases of [split_lines] on a text that is not empty. *)
Lemma split_lines_cases (c : ascii) (rest : string) :
  (c = LF /\ split_lines (String c rest) = "" :: split_lines rest) \/
  (exists rest' : string,
      c = CR /\ rest = String LF rest' /\
      split_lines (String c rest) = "" :: split_lines rest') \/
  (c <> LF /\ (c = CR -> starts_with_lf rest = false) /\
   exists (piece : string) (pieces : list string),
     split_lines rest = piece :: pieces /\
     split_lines (String c rest) = String c piece :: pieces).
Proof.
  pose proof (split_lines_nonempty rest) as N.
  cbn [split_lines]. cbv zeta.
  destruct (split_lines rest) as [|piece pieces] eqn:E; [congruence|].
  destruct (Ascii.eqb_spec c LF) as [->|NL]; [left; now split|].
  right.
  destruct (Ascii.eqb_spec c CR) as [->|NC].
  - destruct rest as [|c' rest'].
    + right. split; [exact NL|]. split; [reflexivity|].
      exists piece, pieces. now split.
    + destruct (Ascii.eqb_spec c' LF) as [->|NL'].
      * left. exists rest'. now repeat split.
      * right. split; [exact NL|]. split.
        { intros _. now apply Ascii.eqb_neq. }
        exists piece, pieces. now split.
  - right. split; [exact NL|]. split; [congruence|].
    exists piece, pieces. now split.
Qed.

Lemma split_lines_pieces (s : string) :
  Forall (fun piece : string => occurs LF piece = false) (split_lines s) /\
  List.length (split_lines s) = S (count_char LF s).
Proof.
  induction s as [s IH] using string_length_ind.
  destruct s as [|c rest]; [split; [repeat constructor | reflexivity]|].
  destruct (split_lines_cases c rest)
    as [[-> E]|[(rest' & -> & -> & E)|(NL & _ & piece & pieces & Er & E)]];
    rewrite E.
  - destruct (IH rest) as [F L]; [cbn; lia|].
    split; [now constructor|].
    cbn [List.length count_char]. rewrite Ascii.eqb_refl, L. reflexivity.
  - destruct (IH rest') as [F L]; [cbn; lia|].
    split; [now constructor|].
    cbn [List.length count_char]. rewrite L. reflexivity.
  - destruct (IH rest) as [F L]; [cbn; lia|].
    rewrite Er in F, L. inversion F as [|? ? Hp Hps]; subst.
    apply Ascii.eqb_neq in NL.
    split.
    + constructor; [|exact Hps]. cbn [occurs]. now rewrite NL, Hp.
    + cbn [List.length count_char] in *. rewrite NL. lia.
Qed.

Lemma line_text_cons (c : ascii) (l : string) :
  line_text (String c l) = true ->
  c <> LF /\ (c = CR -> starts_with_lf l = false /\ l <> "") /\
  line_text l = true.
Proof.
  unfold line_text. cbn [occurs ends_with_cr].
  destruct (Ascii.eqb_spec c LF) as [->|NL]; [discriminate|].
  cbn [orb]. intros H. apply andb_true_iff in H as [Ho He].
  split; [exact NL|].
  destruct l as [|c' l'].
  - split; [|reflexivity].
    intros ->. discriminate.
  - rewrite Ho, He. split; [|reflexivity].
    intros _. split; [|discriminate].
    cbn [starts_with_lf occurs] in *.
    apply negb_true_iff, orb_false_iff in Ho. tauto.
Qed.

(** A line and the line feed after it are split off as one piece. *)
Lemma split_lines_line (l rest : string) :
  line_text l = true ->
  split_lines (l ++ nl ++ rest) = l :: split_lines rest.
Proof.
  induction l as [|c l IH]; intros H; [reflexivity|].
  apply line_text_cons in H as (NL & HC & Hl).
  specialize (IH Hl). cbn [append].
  destruct (split_lines_cases c (l ++ nl ++ rest))
    as [[-> _]|[(rest' & -> & E & _)|(_ & _ & piece & pieces & Er & E)]];
    [congruence| |].
  - destruct (HC eq_refl) as [Hs Hn].
    destruct l as [|c' l']; [congruence|].
    cbn [append] in E. injection E as -> _.
    cbn in Hs. discriminate.
  - rewrite E. rewrite IH in Er. injection Er as <- <-. reflexivity.
Qed.

Lemma split_lines_last_line (l : string) :
  line_text l = true -> split_lines l = [l].
Proof.
  induction l as [|c l IH]; intros H; [reflexivity|].
  apply line_text_cons in H as (NL & HC & Hl).
  specialize (IH Hl).
  destruct (split_lines_cases c l)
    as [[-> _]|[(rest' & -> & -> & _)|(_ & _ & piece & pieces & Er & E)]];
    [congruence| |].
  - destruct (HC eq_refl) as [Hs _]. cbn in Hs. discriminate.
  - rewrite E. rewrite IH in Er. injection Er as <- <-. reflexivity.
Qed.

Lemma split_lines_joined (lines : list string) :
  lines <> [] ->
  forallb line_text lines = true ->
  split_lines (String.concat nl lines) = lines.
Proof.
  induction lines as [|l lines IH]; [congruence|].
  intros _ H. cbn [forallb] in H. apply andb_true_iff in H as [Hl Hls].
  destruct lines as [|l2 lines].
  - cbn [concat]. now apply split_lines_last_line.
  - change (String.concat nl (l :: l2 :: lines))
      with (l ++ nl ++ String.concat nl (l2 :: lines)).
    rewrite split_lines_line by exact Hl.
    rewrite IH; [reflexivity | discriminate | exact Hls].
Qed.

Lemma push_lines_shape
    (indent : string) (delimiter : value) (full_string : string) :
  List.length (push_lines (indent, delimiter, full_string)) =
    S (count_char LF full_string) /\
  Forall (fun t : triple =>
            fst t = (indent, delimiter) /\
            exists s : string, snd t = s ++ nl /\ occurs LF s = false)
    (push_lines (indent, delimiter, full_string)).
Proof.
  destruct (split_lines_pieces full_string) as [F L].
  unfold push_lines. rewrite length_map. split; [exact L|].
  apply Forall_map. eapply Forall_impl; [|exact F].
  intros piece Hp. cbn [fst snd]. split; [reflexivity|].
  now exists piece.
Qed.

End SplitLines.

(** X5.  A block of text yields one triple more than it holds line feeds,
    and no piece of it holds a line feed: every triple is one line. *)
Theorem push_lines_one_triple_per_line
    (indent : string) (delimiter : value) (full_string : string) :
  List.length (push_lines (indent, delimiter, full_string)) =
    S (count_char LF full_string) /\
  Forall (fun t : triple =>
            fst t = (indent, delimiter) /\
            exists s : string, snd t = s ++ nl /\ occurs LF s = false)
    (push_lines (indent, delimiter, full_string)).
Proof. apply push_lines_shape. Qed.

(** X6.  Splitting undoes the joining of lines: the text of a block whose
    lines are put together with a line feed between them comes back as
    those lines, each with a line feed at its end, when no line holds a line
    feed or ends in a carriage return. *)
Theorem push_lines_of_joined_lines
    (indent : string) (delimiter : value) (lines : list string) :
  lines <> [] ->
  forallb line_text lines = true ->
  push_lines (indent, delimiter, String.concat nl lines) =
  map (fun l : string => (indent, delimiter, l ++ nl)) lines.
Proof.
  intros Hn Hl. unfold push_lines. now rewrite split_lines_joined.
Qed.

Lemma push_lines_of_joined_lines_witness :
  push_lines ("  ", Str "#", String.concat nl ["a"; ""; "b" ++ cr ++ "c"]) =
  [("  ", Str "#", "a" ++ nl); ("  ", Str "#", nl);
   ("  ", Str "#", "b" ++ cr ++ "c" ++ nl)].
Proof.
  apply (push_lines_of_joined_lines "  " (Str "#")
           ["a"; ""; "b" ++ cr ++ "c"]).
  - discriminate.
  - reflexivity.
Defined.

Section Extraction.

Variable html_beautify : string -> Z -> string.
Variable doc_only : bool.

Lemma block_of_tag_raises (t : tag) :
  has_delimiter doc_only t = false ->
  block_of_tag html_beautify doc_only t = Raise TypeError.
Proof.
  destruct t as [v|indent_cell comment content]; cbn [has_delimiter block_of_tag].
  - discriminate.
  - destruct doc_only; cbn [orb]; [discriminate|].
    destruct comment as [c|]; [discriminate | reflexivity].
Qed.

Lemma editor_to_code_doc_blocks_shape (tags : list tag) (triples : list triple) :
  editor_to_code_doc_blocks html_beautify doc_only tags = Ok triples ->
  Forall (fun t : triple =>
            exists s : string, snd t = s ++ nl /\ occurs LF s = false) triples.
Proof.
  revert triples.
  induction tags as [|t tags IH]; intros triples; cbn [editor_to_code_doc_blocks].
  - intros H. injection H as <-. constructor.
  - destruct (block_of_tag html_beautify doc_only t)
      as [[[indent delimiter] full_string]|e]; cbn [bind]; [|discriminate].
    destruct (editor_to_code_doc_blocks html_beautify doc_only tags)
      as [rest|e]; cbn [bind]; [|discriminate].
    intros H. injection H as <-.
    apply Forall_app. split; [|now apply IH].
    eapply Forall_impl;
      [|exact (proj2 (push_lines_shape indent delimiter full_string))].
    intros tr [_ H]. exact H.
Qed.

Lemma extraction_outcome
    (tags : list tag) :
  if forallb (has_delimiter doc_only) tags
  then exists triples : list triple,
         editor_to_code_doc_blocks html_beautify doc_only tags = Ok triples
  else editor_to_code_doc_blocks html_beautify doc_only tags = Raise TypeError.
Proof.
  induction tags as [|t tags IH]; cbn [forallb editor_to_code_doc_blocks].
  - now exists [].
  - destruct (has_delimiter doc_only t) eqn:Ht; cbn [andb].
    + destruct (block_of_tag_total html_beautify doc_only t Ht) as [b ->].
      cbn [bind].
      destruct (forallb (has_delimiter doc_only) tags).
      * destruct IH as [triples ->]. cbn [bind]. eexists. reflexivity.
      * rewrite IH. reflexivity.
    + now rewrite (block_of_tag_raises t Ht).
Qed.

End Extraction.

(** X7.  [editor_to_code_doc_blocks] returns when every doc block carries
    its [data-CodeChat-comment] attribute or the page is a document, and it
    raises a [TypeError] otherwise (the delimiter is [null] then, and its
    length is read). *)
Theorem extraction_raises_iff_delimiter_missing
    (html_beautify : string -> Z -> string) (doc_only : bool)
    (tags : list tag) :
  if forallb (has_delimiter doc_only) tags
  then exists triples : list triple,
         editor_to_code_doc_blocks html_beautify doc_only tags = Ok triples
  else editor_to_code_doc_blocks html_beautify doc_only tags = Raise TypeError.
Proof. apply extraction_outcome. Qed.

(** X8.  In a document every tag yields triples with an empty indent and
    the empty delimiter, whatever the page holds, and nothing is raised: the
    text is saved with no comment delimiters. *)
Theorem document_is_saved_without_delimiters
    (html_beautify : string -> Z -> string) (tags : list tag) :
  exists triples : list triple,
    editor_to_code_doc_blocks html_beautify true tags = Ok triples /\
    Forall (fun t : triple => fst t = ("", Str "")) triples.
Proof.
  induction tags as [|t tags (rest & E & F)]; cbn [editor_to_code_doc_blocks].
  - exists []. split; [reflexivity | constructor].
  - rewrite E.
    destruct t as [v|indent_cell comment content];
      cbn [block_of_tag length_of bind]; eexists;
      (split; [reflexivity|]); apply Forall_app; (split; [|exact F]).
    + eapply Forall_impl;
        [|exact (proj2 (push_lines_shape "" (Str "") v))].
      intros tr [H _]. exact H.
    + eapply Forall_impl;
        [|exact (proj2 (push_lines_shape "" (Str "") _))].
      intros tr [H _]. exact H.
Qed.

(** X9.  The triples of a page are the triples of its first tags followed
    by those of the tags after them, and the first tag that raises decides
    the outcome. *)
Theorem editor_to_code_doc_blocks_app
    (html_beautify : string -> Z -> string) (doc_only : bool)
    (tags1 tags2 : list tag) :
  editor_to_code_doc_blocks html_beautify doc_only (tags1 ++ tags2) =
  (triples1 <- editor_to_code_doc_blocks html_beautify doc_only tags1 ;;
   triples2 <- editor_to_code_doc_blocks html_beautify doc_only tags2 ;;
   Ok (triples1 ++ triples2)%list)%result.
Proof.
  induction tags1 as [|t tags1 IH]; cbn [app editor_to_code_doc_blocks bind].
  - now destruct (editor_to_code_doc_blocks html_beautify doc_only tags2).
  - destruct (block_of_tag html_beautify doc_only t) as [b|e];
      cbn [bind]; [|reflexivity].
    rewrite IH.
    destruct (editor_to_code_doc_blocks html_beautify doc_only tags1)
      as [r1|e]; cbn [bind]; [|reflexivity].
    destruct (editor_to_code_doc_blocks html_beautify doc_only tags2)
      as [r2|e]; cbn [bind]; [|reflexivity].
    now rewrite app_assoc.
Qed.

(** ** Saving and loading again *)

Lemma rendered_when_newline_terminated (src : list triple) :
  Forall (fun t : triple => exists s : string, snd t = s ++ nl) src ->
  exists html : string, classified_source_to_html src = Ok html.
Proof.
  intros H. unfold classified_source_to_html.
  destruct (lines_are_rendered src initial_state H) as [st ->].
  cbn [bind]. eexists. reflexivity.
Qed.

Lemma rendered_when_extracted
    (html_beautify : string -> Z -> string) (doc_only : bool)
    (tags : list tag) (triples : list triple) :
  editor_to_code_doc_blocks html_beautify doc_only tags = Ok triples ->
  exists html : string, classified_source_to_html triples = Ok html.
Proof.
  intros H. apply rendered_when_newline_terminated.
  eapply Forall_impl;
    [|exact (editor_to_code_doc_blocks_shape html_beautify doc_only
               tags triples H)].
  intros t (s & E & _). now exists s.
Qed.

(** X10.  Triples whose contents all end in a newline are rendered,
    whatever their delimiters are: the call raises nothing. *)
Theorem newline_terminated_triples_render (src : list triple) :
  Forall (fun t : triple => exists s : string, snd t = s ++ nl) src ->
  exists html : string, classified_source_to_html src = Ok html.
Proof. apply rendered_when_newline_terminated. Qed.

Lemma newline_terminated_triples_render_witness :
  exists html : string,
    classified_source_to_html
      [("", Null, "a" ++ nl); ("", Null, nl); ("", Str "", "b" ++ cr ++ nl)] =
    Ok html.
Proof.
  apply newline_terminated_triples_render.
  repeat constructor; cbn [snd].
  - now exists "a".
  - now exists "".
  - now exists ("b" ++ cr).
Defined.

(** X11.  What [editor_to_code_doc_blocks] returns can be rendered by
    [classified_source_to_html]: every triple it makes ends in a newline, so
    the read of [m[0]] finds a match. *)
Theorem extracted_triples_render
    (html_beautify : string -> Z -> string) (doc_only : bool)
    (tags : list tag) (triples : list triple) :
  editor_to_code_doc_blocks html_beautify doc_only tags = Ok triples ->
  exists html : string, classified_source_to_html triples = Ok html.
Proof. apply rendered_when_extracted. Qed.

Lemma extracted_triples_render_witness :
  exists html : string,
    classified_source_to_html
      [("", Str "", "x = 1" ++ nl); ("", Str "", "y = 2" ++ nl);
       ("  ", Str "#", "<p>hi</p>" ++ nl)] = Ok html.
Proof.
  apply (extracted_triples_render (fun text _ => text) false
           [ACE ("x = 1" ++ nl ++ "y = 2");
            TinyMCE "  " (Some "#") "<p>hi</p>"]).
  reflexivity.
Defined.

(** X12.  A page that was saved can be opened again: when the page holds
    a tag, [open_lp] returns on the triples that
    [editor_to_code_doc_blocks] made, for a document as for a source
    file. *)
Theorem saved_page_opens
    (html_beautify : string -> Z -> string) (current_metadata : metadata)
    (tags : list tag) (triples : list triple) :
  tags <> [] ->
  editor_to_code_doc_blocks html_beautify (is_doc_only current_metadata) tags =
    Ok triples ->
  exists html : string,
    open_lp {| source_metadata := current_metadata;
               code_doc_block_arr := triples |} = Ok html.
Proof.
  intros Hn H. unfold open_lp. cbn [source_metadata code_doc_block_arr].
  destruct (is_doc_only current_metadata) eqn:D.
  - destruct tags as [|t tags]; [congruence|].
    cbn [editor_to_code_doc_blocks] in H.
    destruct (block_of_tag html_beautify true t)
      as [[[indent delimiter] full_string]|e]; cbn [bind] in H;
      [|discriminate].
    destruct (editor_to_code_doc_blocks html_beautify true tags)
      as [rest|e]; cbn [bind] in H; [|discriminate].
    injection H as <-.
    pose proof (split_lines_nonempty full_string) as N.
    unfold push_lines.
    destruct (split_lines full_string) as [|piece pieces]; [congruence|].
    cbn [map app]. eexists. reflexivity.
  - now apply (rendered_when_extracted html_beautify false tags).
Qed.

Lemma saved_page_opens_witness :
  exists html : string,
    open_lp {| source_metadata := {| mode := "codechat-html" |};
               code_doc_block_arr :=
                 [("", Str "", "<p>one</p>" ++ nl);
                  ("", Str "", "<p>two</p>" ++ nl)] |} = Ok html.
Proof.
  apply (saved_page_opens (fun text _ => text)
           {| mode := "codechat-html" |}
           [TinyMCE "" None ("<p>one</p>" ++ nl ++ "<p>two</p>")]).
  - discriminate.
  - reflexivity.
Defined.

(** ** [classified_source_to_html] *)
Section Blocks.

Lemma for_of_delimiter_changes (src : list triple) (st : state) :
  delimiter_changes (current_delimiter st) src = true ->
  exists st' : state, for_of st src = Ok st'.
Proof.
  revert st.
  induction src as [|[[indent delimiter] contents] src IH]; intros st H.
  - eexists. reflexivity.
  - cbn [delimiter_changes] in H. apply andb_true_iff in H as [Hd Hs].
    cbn [for_of loop_body]. rewrite Hd.
    destruct (strict_eq delimiter (Str "")); cbn [bind]; now apply IH.
Qed.

Lemma occurs_concat (c : ascii) (sep : string) (pieces : list string) :
  occurs c sep = false ->
  Forall (fun piece : string => occurs c piece = false) pieces ->
  occurs c (String.concat sep pieces) = false.
Proof.
  intros Hsep F.
  induction F as [|piece pieces Hp F IH]; [reflexivity|].
  destruct pieces as [|p2 pieces]; [exact Hp|].
  change (String.concat sep (piece :: p2 :: pieces))
    with (piece ++ sep ++ String.concat sep (p2 :: pieces)).
  now rewrite !occurs_app, Hp, Hsep, IH.
Qed.

Lemma ends_with_cr_cons (c : ascii) (s : string) :
  ends_with_cr (String c s) =
  match s with
  | "" => Ascii.eqb c CR
  | String _ _ => ends_with_cr s
  end.
Proof. reflexivity. Qed.

Lemma match_final_newline_from_some (i : nat) (s : string) (mm : regexp_match) :
  match_final_newline_from i s = Some mm ->
  exists t : string, s = t ++ nl /\ m_index mm = i + String.length t.
Proof.
  revert i.
  induction s as [|c s IH]; intros i; cbn [match_final_newline_from];
    [discriminate|].
  destruct (Ascii.eqb_spec c LF) as [->|NL]; cbn [andb].
  - destruct (String.eqb_spec s "") as [->|Ns].
    + intros H. injection H as <-. exists "". cbn. now rewrite Nat.add_0_r.
    + intros H. destruct (IH _ H) as (t & -> & Hi).
      exists (String LF t). cbn [append String.length]. split; [reflexivity|].
      rewrite Hi. lia.
  - intros H. destruct (IH _ H) as (t & -> & Hi).
    exists (String c t). cbn [append String.length]. split; [reflexivity|].
    rewrite Hi. lia.
Qed.

End Blocks.

(** X13.  A sequence in which every triple has another delimiter than the
    one before it is rendered whatever its contents are, with or without a
    newline at their end: the match [m] is read only when a block goes
    on. *)
Theorem separate_blocks_render (src : list triple) :
  delimiter_changes (Num (-2)) src = true ->
  exists html : string, classified_source_to_html src = Ok html.
Proof.
  intros H. unfold classified_source_to_html.
  destruct (for_of_delimiter_changes src initial_state H) as [st ->].
  cbn [bind]. eexists. reflexivity.
Qed.

Lemma separate_blocks_render_witness :
  exists html : string,
    classified_source_to_html
      [("", Str "", "x = 1"); ("", Str "#", " hello" ++ nl); ("", Str "", "")] =
    Ok html.
Proof.
  apply separate_blocks_render. reflexivity.
Defined.

(** X14.  Merging, on lines that end in a newline: the lines of one run of
    a string delimiter, after any rendered triples of another delimiter,
    make one block that is opened once, with the indent of its first line,
    and closed once; its text is the lines with a newline between them and
    none at the end. *)
Theorem run_is_one_block
    (pre : list triple) (st : state) (d indent first : string)
    (more : list (string * string)) :
  for_of initial_state pre = Ok st ->
  current_delimiter st <> Str d ->
  classified_source_to_html (pre ++ run_of d indent first more) =
  Ok (join (html st) ++ join (_exit_state (current_delimiter st) []) ++
      (if String.eqb d "" then code_open (line st)
       else doc_open indent (Str d)) ++
      String.concat nl
        (map (fun s : string => if String.eqb d "" then escapeHTML s else s)
           (first :: map snd more)) ++
      (if String.eqb d "" then code_close else doc_close)).
Proof. intros Hpre N. now apply run_renders_as_one_block. Qed.

Lemma run_is_one_block_witness :
  classified_source_to_html
    ([("", Str "", "x = 1" ++ nl)] ++
     run_of "#" "  " " one" [("    ", " two"); ("", " three")]) =
  Ok (code_open 1 ++ "x = 1" ++ code_close ++
      doc_open "  " (Str "#") ++
      " one" ++ nl ++ " two" ++ nl ++ " three" ++ doc_close).
Proof.
  assert (N : Str "" <> Str "#") by discriminate.
  exact (run_is_one_block
           [("", Str "", "x = 1" ++ nl)]
           {| html := [code_open 1; "x = 1"];
              current_delimiter := Str "";
              line := 2 |}
           "#" "  " " one" [("    ", " two"); ("", " three")] eq_refl N).
Defined.

Lemma escapeHTML_clean (s : string) :
  occurs "<" (escapeHTML s) = false /\ occurs ">" (escapeHTML s) = false.
Proof. rewrite escapeHTML_chars. apply escape_chars_clean. Qed.

(** X16.  The first line number, on lines that end in a line feed with no
    carriage return before it: after such lines the counter is one more than
    the number of line terminators in them, and the code block opened next
    carries that number. *)
Theorem first_line_number_after_lf_lines
    (pre : list triple) (indent contents : string) :
  Forall lf_terminated pre ->
  exists st : state,
    for_of initial_state pre = Ok st /\
    line st = 1 + total_line_terminators pre /\
    (current_delimiter st = Str "" \/
     exists st' : state,
       loop_body st (indent, Str "", contents) = Ok st' /\
       html st' =
         (html st ++ _exit_state (current_delimiter st) [] ++
          [code_open (1 + total_line_terminators pre);
           escapeHTML
             (strip_final_newline (match_final_newline contents) contents)])%list).
Proof.
  intros Hpre.
  destruct (first_line_number_of_lf_lines pre indent contents Hpre)
    as (st & Hst & L & Hbody).
  exists st. split; [exact Hst|]. split; [exact L|].
  destruct (strict_eq_spec (current_delimiter st) (Str "")) as [E|N];
    [now left|].
  right. eexists. split; [exact (Hbody N) | reflexivity].
Qed.

Lemma first_line_number_after_lf_lines_witness :
  exists st : state,
    for_of initial_state
      [("", Str "", "a" ++ nl ++ "b" ++ nl); ("", Str "#", " c" ++ nl)] =
      Ok st /\
    line st =
      1 + total_line_terminators
            [("", Str "", "a" ++ nl ++ "b" ++ nl); ("", Str "#", " c" ++ nl)] /\
    (current_delimiter st = Str "" \/
     exists st' : state,
       loop_body st ("", Str "", "d" ++ nl) = Ok st' /\
       html st' =
         (html st ++ _exit_state (current_delimiter st) [] ++
          [code_open
             (1 + total_line_terminators
                    [("", Str "", ("a" ++ nl ++ "b" ++ nl)%string);
                     ("", Str "#", (" c" ++ nl)%string)]);
           escapeHTML
             (strip_final_newline (match_final_newline ("d" ++ nl)%string)
                ("d" ++ nl)%string)])%list).
Proof.
  apply (first_line_number_after_lf_lines
           [("", Str "", "a" ++ nl ++ "b" ++ nl); ("", Str "#", " c" ++ nl)]
           "" ("d" ++ nl)).
  repeat constructor.
  - exists ("a" ++ nl ++ "b"). split; reflexivity.
  - exists " c". split; reflexivity.
Defined.

(** X17.  Line terminators add up over a concatenation, but for a carriage
    return at the end of the first text and a line feed at the start of the
    second: the two are one terminator in the whole and two in the parts. *)
Theorem count_line_terminators_app (a b : string) :
  count_line_terminators (a ++ b) +
  (if ends_with_cr a && starts_with_lf b then 1 else 0) =
  count_line_terminators a + count_line_terminators b.
Proof.
  induction a as [|c a IH]; [cbn; lia|].
  rewrite ends_with_cr_cons. cbn [append count_line_terminators].
  destruct (Ascii.eqb_spec c LF) as [->|NL].
  - destruct a as [|c' a']; [cbn; lia | lia].
  - destruct (Ascii.eqb_spec c CR) as [->|NC].
    + destruct a as [|c' a'].
      * cbn [append andb].
        destruct b as [|c' b']; [cbn; lia|].
        cbn [starts_with_lf].
        change (count_line_terminators "") with 0.
        destruct (Ascii.eqb_spec c' LF) as [->|N']; [|lia].
        cbn [count_line_terminators]. rewrite Ascii.eqb_refl. lia.
      * cbn [append] in *.
        destruct (Ascii.eqb_spec c' LF) as [->|N']; [|lia].
        cbn [count_line_terminators] in IH.
        rewrite Ascii.eqb_refl in IH. lia.
    + destruct a as [|c' a']; [cbn; lia | lia].
Qed.

(** X18.  What [match(/\n$/)] and [substring] take off: when the contents
    end in a line feed, the match is that line feed, its index is the length
    of what is left, and the contents are what is left followed by the line
    feed; otherwise there is no match and the contents stay as they are. *)
Theorem final_newline_is_taken_off (contents : string) :
  let stripped := strip_final_newline (match_final_newline contents) contents in
  match match_final_newline contents with
  | Some mm =>
      m_0 mm = nl /\ m_index mm = String.length stripped /\
      contents = stripped ++ nl
  | None => stripped = contents /\ forall s : string, contents <> s ++ nl
  end.
Proof.
  intros stripped. subst stripped.
  destruct (match_final_newline contents) as [mm|] eqn:M.
  - pose proof (match_final_newline_from_m_0 0 contents mm M) as H0.
    destruct (match_final_newline_from_some 0 contents mm M) as (t & -> & Hi).
    cbn [strip_final_newline]. cbn [Nat.add] in Hi.
    rewrite Hi, substring_prefix. now repeat split.
  - split; [reflexivity|].
    intros s ->. rewrite match_final_newline_snoc in M. discriminate.
Qed.

(** ** [save], [on_save] and [on_keydown] *)

(** X19.  [save] raises exactly when the response is ok and its body is
    no JSON text (the error of [response.json()]) or is the JSON text
    [null] (a [TypeError]); it shows no alert then, and never more than
    one. *)
Theorem save_raises_iff_body_unreadable (o : fetch_outcome) (e : error) :
  (snd (save o) = Raise e <->
   exists r : response,
     o = Resolves r /\ ok r = true /\
     (json_body r = Raise e \/ (json_body r = Ok JNull /\ e = TypeError))) /\
  (snd (save o) = Ok tt \/ fst (save o) = []) /\
  List.length (fst (save o)) <= 1.
Proof.
  destruct o as [err|r]; cbn [save].
  - split; [|split; [now left | cbn; lia]].
    split; [discriminate | intros (r & H & _); discriminate].
  - destruct (ok r) eqn:Hok.
    + destruct (json_body r) as [body|e'] eqn:Hb.
      * destruct body as [|b|z|s|items|properties]; cbn [get_success];
          try (destruct (negb (is_true _)));
          (split; [|split; [auto | cbn; lia]]); cbn [snd];
          (split;
           [ intros H; try discriminate; injection H as <-;
             exists r; repeat split; auto
           | intros (r' & Hr & _ & [Hj|[Hj He]]); injection Hr as <-;
             rewrite Hb in Hj; try discriminate; congruence ]).
      * split; [|split; [now right | cbn; lia]]. cbn [snd].
        split.
        -- intros H. injection H as <-. exists r. repeat split; auto.
        -- intros (r' & Hr & _ & [Hj|[Hj He]]); injection Hr as <-;
             rewrite Hb in Hj; congruence.
    + split; [|split; [now left | cbn; lia]]. cbn [snd].
      split; [discriminate|].
      intros (r' & Hr & Hok' & _). injection Hr as <-. congruence.
Qed.

(** X20.  [on_save] calls [fetch] once, with the metadata and the triples
    of the page, when the triples can be made, and its alerts and outcome
    are those of [save] on the answer; when a doc block carries no delimiter
    it calls nothing, shows no alert and raises a [TypeError]. *)
Theorem on_save_sends_once_or_raises
    (html_beautify : string -> Z -> string) (current_metadata : metadata)
    (tags : list tag) (fetch : all_source -> fetch_outcome) :
  if forallb (has_delimiter (is_doc_only current_metadata)) tags
  then exists source_code : list triple,
         editor_to_code_doc_blocks html_beautify
           (is_doc_only current_metadata) tags = Ok source_code /\
         let contents :=
           {| source_metadata := current_metadata;
              code_doc_block_arr := source_code |} in
         on_save html_beautify current_metadata tags fetch =
         ([contents], fst (save (fetch contents)), snd (save (fetch contents)))
  else on_save html_beautify current_metadata tags fetch =
       ([], [], Raise TypeError).
Proof.
  pose proof (extraction_outcome
                html_beautify (is_doc_only current_metadata) tags) as H.
  unfold on_save.
  destruct (forallb (has_delimiter (is_doc_only current_metadata)) tags).
  - destruct H as [source_code E]. exists source_code.
    split; [exact E|]. rewrite E. cbv zeta.
    now destruct (save (fetch _)).
  - now rewrite H.
Qed.

Section Shortcut.

Lemma index_zero_prefix (s1 s2 : string) :
  match index 0 s1 s2 with
  | Some 0 => true
  | _ => false
  end = prefix s1 s2.
Proof.
  destruct s2 as [|b s2]; cbn [index].
  - now destruct s1.
  - destruct (prefix s1 (String b s2)); [reflexivity|].
    now destruct (index 0 s1 s2).
Qed.

End Shortcut.

(** X21.  The shortcut: [on_keydown] calls [on_save] exactly when the key
    is [s], alt is not held and the modifier of the platform is held (the
    command key where the platform text begins with [Mac] or is [iPhone],
    the control key elsewhere); it prevents the default action exactly then,
    and leaves the event as it is otherwise. *)
Theorem on_keydown_saves_on_platform_shortcut
    (platform : string) (event : keyboard_event) :
  let mac := prefix "Mac" platform || String.eqb platform "iPhone" in
  (fst (on_keydown platform event) = true <->
   key event = "s" /\ altKey event = false /\
   (if mac then metaKey event else ctrlKey event) = true) /\
  keyDefaultPrevented (snd (on_keydown platform event)) =
    keyDefaultPrevented event || fst (on_keydown platform event) /\
  (fst (on_keydown platform event) = false ->
   snd (on_keydown platform event) = event).
Proof.
  intros mac. unfold on_keydown, os_is_osx.
  rewrite index_zero_prefix. fold mac.
  destruct (String.eqb_spec (key event) "s") as [->|N]; cbn [andb].
  - destruct mac, (ctrlKey event), (metaKey event), (altKey event);
      cbn; repeat split; try tauto; try discriminate;
      try (now rewrite orb_true_r); try (now rewrite orb_false_r);
      intros (_ & H1 & H2); discriminate.
  - cbn. rewrite orb_false_r. repeat split; try discriminate.
    intros (H & _). congruence.
Qed.

(** ** A triple with a string delimiter, at any place of the input *)
Section StringTriple.

Lemma string_triple_is_rendered
    (pre : list triple) (st : state) (indent d contents : string) :
  for_of initial_state pre = Ok st ->
  (current_delimiter st = Str d -> match_final_newline contents <> None) ->
  let text := strip_final_newline (match_final_newline contents) contents in
  let rendered :=
    (html st ++
     (if strict_eq (current_delimiter st) (Str d)
      then [nl]
      else _exit_state (current_delimiter st) [] ++
           [if String.eqb d "" then code_open (line st)
            else doc_open indent (Str d)]) ++
     [if String.eqb d "" then escapeHTML text else text])%list in
  for_of initial_state (pre ++ [(indent, Str d, contents)]) =
    Ok {| html := rendered;
          current_delimiter := Str d;
          line := line st + (1 + count_line_terminators text) |} /\
  classified_source_to_html (pre ++ [(indent, Str d, contents)]) =
    Ok (join (rendered ++ [if String.eqb d "" then code_close else doc_close])).
Proof.
  intros Hpre Hm text rendered.
  assert (Hfor : for_of initial_state (pre ++ [(indent, Str d, contents)]) =
                 Ok {| html := rendered;
                       current_delimiter := Str d;
                       line := line st + (1 + count_line_terminators text) |}).
  { rewrite for_of_app, Hpre. cbn [bind for_of loop_body].
    fold text. subst rendered.
    destruct (strict_eq_spec (current_delimiter st) (Str d)) as [E|N];
      cbn [negb].
    - specialize (Hm E).
      destruct (match_final_newline contents) as [mm|] eqn:M; [|congruence].
      cbn [bind]. rewrite (match_final_newline_from_m_0 0 contents mm M).
      cbn [strict_eq]. reflexivity.
    - cbn [strict_eq].
      rewrite (exit_state_app (current_delimiter st) (html st)).
      destruct (String.eqb d ""); cbn [bind];
        rewrite <- ?app_assoc; reflexivity. }
  split; [exact Hfor|].
  unfold classified_source_to_html.
  rewrite Hfor. cbn [bind current_delimiter html].
  now rewrite exit_state_string.
Qed.

(** The contents without their final newline. *)
Lemma strip_final_newline_cases (contents : string) :
  let text := strip_final_newline (match_final_newline contents) contents in
  contents = text ++ nl \/
  (contents = text /\ forall s : string, contents <> s ++ nl).
Proof.
  intros text. subst text.
  destruct (match_final_newline contents) as [mm|] eqn:M.
  - left.
    destruct (match_final_newline_from_some 0 contents mm M) as (t & -> & Hi).
    cbn [strip_final_newline]. cbn [Nat.add] in Hi.
    now rewrite Hi, substring_prefix.
  - right. split; [reflexivity|].
    intros s ->. rewrite match_final_newline_snoc in M. discriminate.
Qed.

Lemma exit_state_nil (delimiter : value) :
  _exit_state delimiter [] =
  match delimiter with
  | Str s => [if String.eqb s "" then code_close else doc_close]
  | _ => []
  end.
Proof.
  destruct delimiter as [|z|s]; try reflexivity.
  unfold _exit_state. cbn [strict_eq is_string app].
  now destruct (String.eqb s "").
Qed.

End StringTriple.

(** C3, as the code has it.  A triple whose delimiter is a string [d], at
    any place of the input, after the triples [pre] were rendered.  When
    its delimiter is not the current one, the state left is closed (a code
    block by the code closing markup, a doc block of a string delimiter by
    the doc closing markup, the sentinel and [null] by nothing) and the
    triple opens a block: for the empty string an ACE region that carries
    the current line number, with the contents escaped; for another string
    a TinyMCE region that carries that string and the indent of the triple,
    with the contents as they are.  When its delimiter is the current one
    and its contents end in a newline, a newline and the contents (escaped
    for code) are added to the open region, and neither markup nor the
    indent of the triple is emitted.  The contents are emitted without their
    final newline, and the state entered is closed by the matching markup.
    The markup is written out. *)
Theorem delimiter_discrimination
    (pre : list triple) (st : state) (indent d contents : string) :
  for_of initial_state pre = Ok st ->
  (current_delimiter st = Str d -> exists s : string, contents = s ++ nl) ->
  let ace_opening :=
    nl ++ "<div class=" ++ dq ++ "CodeChat-code" ++ dq ++ ">" ++ nl ++
    "    <div class=" ++ dq ++ "CodeChat-ACE" ++ dq ++
    " data-CodeChat-firstLineNumber=" ++ dq ++ nat_to_string (line st) ++
    dq ++ ">" in
  let tinymce_opening :=
    "<div class=" ++ dq ++ "CodeChat-doc" ++ dq ++ ">" ++ nl ++
    "    <table>" ++ nl ++ "        <tbody>" ++ nl ++ "            <tr>" ++
    nl ++ "                <td class=" ++ dq ++
    "CodeChat-ACE-gutter-padding ace_editor" ++ dq ++
    ">&nbsp;&nbsp;&nbsp</td>" ++ nl ++ "                <td class=" ++ dq ++
    "CodeChat-ACE-padding" ++ dq ++ "></td>                <td class=" ++
    dq ++ "ace_editor CodeChat-doc-indent" ++ dq ++
    " contenteditable onpaste=" ++ dq ++ "return false" ++ dq ++ ">" ++
    indent ++ "</td>" ++ nl ++ "                <td class=" ++ dq ++
    "CodeChat-TinyMCE-td" ++ dq ++ "><div class=" ++ dq ++
    "CodeChat-TinyMCE" ++ dq ++ " data-CodeChat-comment=" ++ dq ++ d ++
    dq ++ ">" in
  let code_closing := "</div>" ++ nl ++ "</div>" ++ nl in
  let doc_closing :=
    "</td>" ++ nl ++ "            </tr>" ++ nl ++ "        </tbody>" ++ nl ++
    "    </table>" ++ nl ++ "</div>" ++ nl in
  let closing_of := fun delimiter : value =>
    match delimiter with
    | Str s => [if String.eqb s "" then code_closing else doc_closing]
    | _ => []
    end in
  exists (text : string) (rendered : list string),
    (contents = text ++ nl \/
     (contents = text /\ forall s : string, contents <> s ++ nl)) /\
    (current_delimiter st <> Str d ->
     rendered =
       (html st ++ closing_of (current_delimiter st) ++
        [if String.eqb d "" then ace_opening else tinymce_opening;
         if String.eqb d "" then escapeHTML text else text])%list) /\
    (current_delimiter st = Str d ->
     rendered =
       (html st ++ [nl; if String.eqb d "" then escapeHTML text else text])%list) /\
    for_of initial_state (pre ++ [(indent, Str d, contents)]) =
      Ok {| html := rendered;
            current_delimiter := Str d;
            line := line st + (1 + count_line_terminators text) |} /\
    classified_source_to_html (pre ++ [(indent, Str d, contents)]) =
      Ok (join (rendered ++ closing_of (Str d))) /\
    (forall h : list string,
        _exit_state (Str d) h = (h ++ closing_of (Str d))%list).
Proof.
  intros Hpre Hm. cbv zeta.
  assert (Hm' : current_delimiter st = Str d ->
                match_final_newline contents <> None).
  { intros E. destruct (Hm E) as [s ->].
    rewrite match_final_newline_snoc. discriminate. }
  destruct (string_triple_is_rendered pre st indent d contents Hpre Hm')
    as [Hfor Hout].
  eexists. eexists.
  split; [apply strip_final_newline_cases|].
  split; [|split; [|split; [exact Hfor | split; [exact Hout|]]]].
  - intros N.
    destruct (strict_eq_spec (current_delimiter st) (Str d)) as [E|_];
      [congruence|].
    rewrite exit_state_nil, <- app_assoc. reflexivity.
  - intros E.
    destruct (strict_eq_spec (current_delimiter st) (Str d)) as [_|N];
      [reflexivity | congruence].
  - intros h. apply exit_state_string.
Qed.

(** A comment that opens a doc block after a line of code, and a comment
    that goes on with the doc block before it. *)
Lemma delimiter_discrimination_witness :
  (exists (text : string) (rendered : list string),
      (" hello" ++ nl = text ++ nl \/
       (" hello" ++ nl = text /\
        forall s : string, " hello" ++ nl <> s ++ nl)) /\
      for_of initial_state
        [("", Str "", "x = 1" ++ nl); ("  ", Str "#", " hello" ++ nl)] =
        Ok {| html := rendered;
              current_delimiter := Str "#";
              line := 2 + (1 + count_line_terminators text) |} /\
      classified_source_to_html
        [("", Str "", "x = 1" ++ nl); ("  ", Str "#", " hello" ++ nl)] =
        Ok (join (rendered ++ [doc_close]))) /\
  (exists (text : string) (rendered : list string),
      (" two" ++ nl = text ++ nl \/
       (" two" ++ nl = text /\ forall s : string, " two" ++ nl <> s ++ nl)) /\
      rendered = [doc_open "" (Str "#"); " one"; nl; text] /\
      classified_source_to_html
        [("", Str "#", " one" ++ nl); ("    ", Str "#", " two" ++ nl)] =
        Ok (join (rendered ++ [doc_close]))).
Proof.
  split.
  - assert (Hm : Str "" = Str "#" -> exists s : string, " hello" ++ nl = s ++ nl)
      by (intros _; now exists " hello").
    destruct (delimiter_discrimination
                [("", Str "", "x = 1" ++ nl)]
                {| html := [code_open 1; "x = 1"];
                   current_delimiter := Str "";
                   line := 2 |}
                "  " "#" (" hello" ++ nl) eq_refl Hm)
      as (text & rendered & Ht & _ & _ & Hfor & Hout & _).
    exists text, rendered. split; [exact Ht|]. split; [exact Hfor | exact Hout].
  - assert (Hm : Str "#" = Str "#" -> exists s : string, " two" ++ nl = s ++ nl)
      by (intros _; now exists " two").
    destruct (delimiter_discrimination
                [("", Str "#", " one" ++ nl)]
                {| html := [doc_open "" (Str "#"); " one"];
                   current_delimiter := Str "#";
                   line := 2 |}
                "    " "#" (" two" ++ nl) eq_refl Hm)
      as (text & rendered & Ht & _ & Hcont & _ & Hout & _).
    exists text, rendered. split; [exact Ht|].
    split; [exact (Hcont eq_refl) | exact Hout].
Defined.

(** The claim C3 as it is stated fails.  A comment line that goes on with
    a doc block is rendered in the region of the first line: its own indent
    of four spaces is nowhere in the output, which is the output for the
    same line with no indent.  And a line that goes on with a block and does
    not end in a newline is not rendered at all. *)
Lemma continuing_triple_indent_is_not_emitted :
  classified_source_to_html
    [("", Str "#", " one" ++ nl); ("    ", Str "#", " two" ++ nl)] =
    Ok (doc_open "" (Str "#") ++ " one" ++ nl ++ " two" ++ doc_close) /\
  classified_source_to_html
    [("", Str "#", " one" ++ nl); ("", Str "#", " two" ++ nl)] =
    Ok (doc_open "" (Str "#") ++ " one" ++ nl ++ " two" ++ doc_close) /\
  index 0 ("return false" ++ dq ++ ">    </td>")
    (doc_open "" (Str "#") ++ " one" ++ nl ++ " two" ++ doc_close) = None /\
  index 0 ("return false" ++ dq ++ "></td>")
    (doc_open "" (Str "#") ++ " one" ++ nl ++ " two" ++ doc_close) <> None /\
  classified_source_to_html
    [("  ", Str "//", " one" ++ nl); ("  ", Str "//", " two")] =
    Raise TypeError.
Proof. repeat split; try reflexivity. discriminate. Qed.

(** ** The save request *)

(** C7.  An ok response whose body is no JSON text, or is the JSON text
    [null], makes [save] raise: [response.json()] and the read of [success]
    are outside the [try] that guards the fetch, so the error leaves [save]
    and no alert is shown.  A fetch that rejects is caught and reported. *)
Theorem save_raises_on_ok_response_without_success :
  save (Resolves {| ok := true; status := 200; statusText := "OK";
                    json_body := Raise SyntaxError |}) =
    ([], Raise SyntaxError) /\
  save (Resolves {| ok := true; status := 200; statusText := "OK";
                    json_body := Ok JNull |}) =
    ([], Raise TypeError) /\
  save (Rejects "TypeError: Failed to fetch") =
    (["Save failed -- TypeError: Failed to fetch."], Ok tt).
Proof. repeat split. Qed.

Section HandledOutcomes.

Lemma lookup_first (key : string) (v : json)
    (before after : list (string * json)) :
  Forall (fun p : string * json => fst p <> key) before ->
  lookup key (before ++ (key, v) :: after) = Some v.
Proof.
  intros F.
  induction F as [|[k w] before Hk F IH]; cbn [app lookup].
  - now rewrite String.eqb_refl.
  - cbn [fst] in Hk. apply String.eqb_neq in Hk. now rewrite Hk.
Qed.

Lemma lookup_absent (key : string) (properties : list (string * json)) :
  Forall (fun p : string * json => fst p <> key) properties ->
  lookup key properties = None.
Proof.
  intros F.
  induction F as [|[k w] properties Hk F IH]; cbn [lookup]; [reflexivity|].
  cbn [fst] in Hk. apply String.eqb_neq in Hk. now rewrite Hk.
Qed.

End HandledOutcomes.

(** X22.  The outcomes that [save] handles, on the answer itself.  A fetch
    that rejects gives one alert with the error; a response that is not ok
    gives one alert with its status and status text, and its body is not
    read; an ok response whose body is an object gives no alert when its
    [success] property is [true], and the alert [Save failed.] when the
    property is another value or is not there; a body that is a boolean, a
    number, a string or an array gives that alert too.  In all of them
    [save] returns. *)
Theorem save_reports_what_it_handles :
  (forall error : string,
      save (Rejects error) = (["Save failed -- " ++ error ++ "."], Ok tt)) /\
  (forall r : response,
      ok r = false ->
      save (Resolves r) =
      (["Save failed -- server returned " ++ nat_to_string (status r) ++ ", "
        ++ statusText r ++ "."], Ok tt)) /\
  (forall (r : response) (before after : list (string * json)) (v : json),
      ok r = true ->
      json_body r = Ok (JObject (before ++ ("success", v) :: after)) ->
      Forall (fun p : string * json => fst p <> "success") before ->
      save (Resolves r) =
      (match v with
       | JBool true => []
       | _ => ["Save failed."]
       end, Ok tt)) /\
  (forall (r : response) (body : json),
      ok r = true ->
      json_body r = Ok body ->
      match body with
      | JNull => False
      | JObject properties =>
          Forall (fun p : string * json => fst p <> "success") properties
      | _ => True
      end ->
      save (Resolves r) = (["Save failed."], Ok tt)).
Proof.
  split; [reflexivity|]. split; [|split].
  - intros r Hok. cbn [save]. now rewrite Hok.
  - intros r before after v Hok Hb F. cbn [save get_success].
    rewrite Hok, Hb. cbn [get_success]. rewrite (lookup_first _ _ _ _ F).
    destruct v as [|[|]|z|s|items|properties]; reflexivity.
  - intros r body Hok Hb H. cbn [save]. rewrite Hok, Hb.
    destruct body as [|b|z|s|items|properties]; cbn [get_success];
      try reflexivity; [contradiction|].
    now rewrite (lookup_absent _ _ H).
Qed.

Lemma save_reports_what_it_handles_witness :
  save (Resolves {| ok := true; status := 200; statusText := "OK";
                    json_body :=
                      Ok (JObject [("path", JString "a.py");
                                   ("success", JBool true)]) |}) =
    ([], Ok tt) /\
  save (Resolves {| ok := true; status := 200; statusText := "OK";
                    json_body :=
                      Ok (JObject [("success", JString "true")]) |}) =
    (["Save failed."], Ok tt) /\
  save (Resolves {| ok := false; status := 404; statusText := "Not Found";
                    json_body := Raise SyntaxError |}) =
    (["Save failed -- server returned 404, Not Found."], Ok tt).
Proof.
  destruct save_reports_what_it_handles as (_ & Hnot & Hobj & _).
  split; [|split].
  - apply (Hobj _ [("path", JString "a.py")] [] (JBool true));
      [reflexivity | reflexivity |].
    repeat constructor. discriminate.
  - apply (Hobj _ [] [] (JString "true"));
      [reflexivity | reflexivity | constructor].
  - apply (Hnot {| ok := false; status := 404; statusText := "Not Found";
                   json_body := Raise SyntaxError |}).
    reflexivity.
Defined.

(** ** The text of code in the output *)
Section CodeText.

Lemma loop_body_appends (st st' : state) (t : triple) :
  loop_body st t = Ok st' ->
  exists more : list string, html st' = (html st ++ more)%list.
Proof.
  destruct t as [[indent delimiter] contents]. cbn [loop_body].
  destruct (negb (strict_eq (current_delimiter st) delimiter)).
  - rewrite (exit_state_app (current_delimiter st) (html st)).
    destruct (strict_eq delimiter (Str "")); cbn [bind];
      intros H; injection H as <-; cbn [html];
      rewrite <- app_assoc; eexists; reflexivity.
  - destruct (match_final_newline contents) as [mm|]; cbn [bind];
      [|discriminate].
    intros H. injection H as <-. cbn [html]. eexists. reflexivity.
Qed.

Lemma for_of_appends (src : list triple) (st st' : state) :
  for_of st src = Ok st' ->
  exists more : list string, html st' = (html st ++ more)%list.
Proof.
  revert st.
  induction src as [|t src IH]; intros st; cbn [for_of].
  - intros H. injection H as <-. exists []. now rewrite app_nil_r.
  - destruct (loop_body st t) as [st1|e] eqn:Hb; cbn [bind]; [|discriminate].
    intros H.
    destruct (loop_body_appends st st1 t Hb) as [m1 E1].
    destruct (IH st1 H) as [m2 E2].
    exists (m1 ++ m2)%list. now rewrite E2, E1, app_assoc.
Qed.

Lemma loop_body_code (st st' : state) (indent contents : string) :
  loop_body st (indent, Str "", contents) = Ok st' ->
  html st' =
  (html st ++
   (if strict_eq (current_delimiter st) (Str "")
    then [nl]
    else _exit_state (current_delimiter st) [] ++ [code_open (line st)]) ++
   [escapeHTML
      (strip_final_newline (match_final_newline contents) contents)])%list.
Proof.
  cbn [loop_body].
  destruct (strict_eq (current_delimiter st) (Str "")); cbn [negb].
  - destruct (match_final_newline contents) as [mm|] eqn:M; cbn [bind];
      [|discriminate].
    intros H. injection H as <-. cbn [html strict_eq String.eqb].
    rewrite (match_final_newline_from_m_0 0 contents mm M). reflexivity.
  - cbn [strict_eq String.eqb bind].
    intros H. injection H as <-. cbn [html].
    rewrite (exit_state_app (current_delimiter st) (html st)).
    rewrite <- !app_assoc. reflexivity.
Qed.

End CodeText.

(** X15.  The text of code in the output, for any input that is rendered
    and any triple of code in it, whatever comes before and after: the
    output is the output of the triples before it, then a newline (when the
    code block goes on) or the closing markup of the block left and the
    opening of an ACE region, then the escaped contents of the triple without
    their final newline, then the rest; and the escaped contents hold no [<]
    and no [>]. *)
Theorem code_text_is_escaped_everywhere
    (pre post : list triple) (indent contents out : string) :
  classified_source_to_html (pre ++ (indent, Str "", contents) :: post) =
    Ok out ->
  exists (st : state) (after : string),
    for_of initial_state pre = Ok st /\
    let before :=
      if strict_eq (current_delimiter st) (Str "") then nl
      else join (_exit_state (current_delimiter st) []) ++
           code_open (line st) in
    let text :=
      escapeHTML
        (strip_final_newline (match_final_newline contents) contents) in
    out = join (html st) ++ before ++ text ++ after /\
    occurs "<" text = false /\ occurs ">" text = false.
Proof.
  unfold classified_source_to_html. rewrite for_of_app.
  destruct (for_of initial_state pre) as [st|e]; cbn [bind for_of];
    [|discriminate].
  destruct (loop_body st (indent, Str "", contents)) as [st1|e] eqn:Hb;
    cbn [bind]; [|discriminate].
  destruct (for_of st1 post) as [st2|e] eqn:Hpost; cbn [bind]; [|discriminate].
  intros H. injection H as <-.
  destruct (for_of_appends post st1 st2 Hpost) as [more E2].
  pose proof (loop_body_code st st1 indent contents Hb) as E1.
  exists st, (join (more ++ _exit_state (current_delimiter st2) [])).
  split; [reflexivity|]. cbv zeta.
  split; [|apply escapeHTML_clean].
  rewrite (exit_state_app (current_delimiter st2) (html st2)), E2, E1.
  rewrite <- !app_assoc, !join_app.
  destruct (strict_eq (current_delimiter st) (Str ""));
    rewrite ?join_app, !join_single, ?append_assoc; reflexivity.
Qed.

Lemma code_text_is_escaped_everywhere_witness :
  exists (st : state) (after : string),
    for_of initial_state [("", Str "#", " doc" ++ nl)] = Ok st /\
    doc_open "" (Str "#") ++ " doc" ++ doc_close ++
    code_open 2 ++ "if (a &lt; b)" ++ nl ++ "  x = &amp;y;" ++ code_close ++
    doc_open "" (Str "//") ++ " end" ++ doc_close =
      join (html st) ++
      (if strict_eq (current_delimiter st) (Str "") then nl
       else join (_exit_state (current_delimiter st) []) ++
            code_open (line st)) ++
      escapeHTML
        (strip_final_newline (match_final_newline "if (a < b)")
           "if (a < b)") ++ after /\
    occurs "<"
      (escapeHTML
         (strip_final_newline (match_final_newline "if (a < b)")
            "if (a < b)")) = false /\
    occurs ">"
      (escapeHTML
         (strip_final_newline (match_final_newline "if (a < b)")
            "if (a < b)")) = false.
Proof.
  apply (code_text_is_escaped_everywhere
           [("", Str "#", " doc" ++ nl)]
           [("", Str "", "  x = &y;" ++ nl); ("", Str "//", " end" ++ nl)]
           "" "if (a < b)").
  reflexivity.
Defined.
